(** * SAP middleware: backend stub, auth gate and HTTP handlers

    A shallow embedding of [sap_middleware/sap_service.py],
    [sap_middleware/auth.py] and the two route handlers of
    [sap_middleware/app.py], with the properties the specification states
    about them.

    Python values that travel through the handlers come from JSON and are
    modelled by [json]; dictionaries are insertion-ordered association
    lists.  Functions that read the process-wide [settings] object or the
    Flask [request], or that raise, live in the monad [M]: a world is
    threaded through and a computation ends in a value or in a raised
    exception.  Log lines are not modelled; instead each backend function
    records its entry in a ghost call trace, which is what the statements
    "the backend is never called" are phrased over. *)

From Stdlib Require Import ZArith List String Ascii Bool Lia.
From Stdlib Require Import Floats.PrimFloat.
Import ListNotations.

Set Warnings "-register-all".

Local Open Scope string_scope.
Local Open Scope Z_scope.

(* ------------------------------------------------------------------ *)
(** ** Python values obtained from JSON *)

Inductive json : Type :=
| JNull                                   (* None *)
| JBool (b : bool)
| JInt (n : Z)
| JFloat (f : float)
| JStr (s : string)
| JArr (items : list json)
| JObj (fields : list (string * json)).   (* dict, in insertion order *)

Definition dict : Type := list (string * json).

(** Python truthiness, as used by [not x] and [x and y]. *)
Definition truthy (v : json) : bool :=
  match v with
  | JNull => false
  | JBool b => b
  | JInt n => negb (n =? 0)
  | JFloat f => negb (PrimFloat.eqb f 0%float)
  | JStr s => negb (s =? "")%string
  | JArr [] => false
  | JArr (_ :: _) => true
  | JObj [] => false
  | JObj (_ :: _) => true
  end.

(** [isinstance(v, dict)] *)
Definition is_dict (v : json) : bool :=
  match v with JObj _ => true | _ => false end.

(** Lookup of a key; the first binding wins (a dict has at most one). *)
Fixpoint dict_lookup (k : string) (d : dict) : option json :=
  match d with
  | [] => None
  | (k', v) :: rest => if (k' =? k)%string then Some v else dict_lookup k rest
  end.

(** [d.get(k)]: [None] when the key is absent. *)
Definition dict_get (k : string) (d : dict) : json :=
  match dict_lookup k d with
  | Some v => v
  | None => JNull
  end.

(** [k in d] *)
Definition dict_contains (k : string) (d : dict) : bool :=
  match dict_lookup k d with
  | Some _ => true
  | None => false
  end.

(** [v == s] for a string literal [s]: only a [str] can be equal to it. *)
Definition eq_str (v : json) (s : string) : bool :=
  match v with
  | JStr s' => (s' =? s)%string
  | _ => false
  end.

(** Interpolation of a [str] value in an f-string (used only where the
    value is known to be a [str]). *)
Definition fmt_str (v : json) : string :=
  match v with
  | JStr s => s
  | _ => ""
  end.

Definition of_opt_str (o : option string) : json :=
  match o with
  | Some s => JStr s
  | None => JNull
  end.

(* ------------------------------------------------------------------ *)
(** ** Exceptions, settings, request, world *)

(** The three exception classes of [sap_service.py]; [OtherException]
    stands for any other subclass of [Exception]. *)
Inductive exn : Type :=
| SAPConnectionError (msg : string)
| SAPNotFoundError (msg : string)
| SAPOperationError (msg : string)
| OtherException (msg : string).

Inductive result (A : Type) : Type :=
| Ok (a : A)
| Raise (e : exn).
Arguments Ok {A} a.
Arguments Raise {A} e.

(** [config.Settings]: every value comes from [os.getenv] and is [None]
    when the variable is unset. *)
Record Settings : Type := {
  SAP_HOST : option string;
  SAP_CLIENT : option string;
  SAP_USER : option string;
  SAP_PASSWORD : option string;
  SAP_SYSTEM_NUMBER : option string;
  API_KEY : option string
}.

(** What the handlers read of the Flask [request]:
    [request.headers.get('X-API-KEY')] and the outcome of
    [request.get_json()]. *)
Record Request : Type := {
  x_api_key : option string;
  get_json : result json
}.

(** Entries of the ghost call trace. *)
Inductive call : Type :=
| CallConnect
| CallReadMaterial (material_id : string)
| CallCreateSalesOrder (order_data : dict).

Record world : Type := {
  settings : Settings;
  request : Request;
  calls : list call          (* most recent first *)
}.

(* ------------------------------------------------------------------ *)
(** ** The state-and-exception monad *)

Definition M (A : Type) : Type := world -> result A * world.

Definition ret {A} (a : A) : M A := fun w => (Ok a, w).

Definition raise {A} (e : exn) : M A := fun w => (Raise e, w).

Definition bind {A B} (m : M A) (k : A -> M B) : M B :=
  fun w =>
    match m w with
    | (Ok a, w') => k a w'
    | (Raise e, w') => (Raise e, w')
    end.

(** [try: m / except ... as e: h e] *)
Definition try_except {A} (m : M A) (h : exn -> M A) : M A :=
  fun w =>
    match m w with
    | (Ok a, w') => (Ok a, w')
    | (Raise e, w') => h e w'
    end.

Definition get_settings : M Settings := fun w => (Ok (settings w), w).

Definition get_request : M Request := fun w => (Ok (request w), w).

Definition add_call (c : call) (w : world) : world :=
  {| settings := settings w; request := request w; calls := c :: calls w |}.

Definition record_call (c : call) : M unit :=
  fun w => (Ok tt, add_call c w).

Declare Scope monad_scope.
Delimit Scope monad_scope with monad.
Notation "x <- m ;; k" := (bind m (fun x => k))
  (at level 61, m at next level, right associativity) : monad_scope.
Notation "m ;; k" := (bind m (fun _ => k))
  (at level 61, right associativity) : monad_scope.
Local Open Scope monad_scope.

(* ------------------------------------------------------------------ *)
(** ** sap_service.py *)

Definition connect_to_sap : M json :=
  record_call CallConnect ;;
  s <- get_settings ;;
  if eq_str (of_opt_str (SAP_HOST s)) "fail_connection"
  then raise (SAPConnectionError
                "Failed to connect to SAP: Host unreachable (simulated)")
  else ret (JObj [("status", JStr "connected");
                  ("host", of_opt_str (SAP_HOST s))]).

Definition read_material_data (material_id : string) : M dict :=
  record_call (CallReadMaterial material_id) ;;
  try_except
    (conn <- connect_to_sap ;;
     if negb (truthy conn)
     then raise (SAPConnectionError
       "Connection not established for read_material_data (unexpected internal state)")
     else ret tt)
    (fun e =>
       match e with
       | SAPConnectionError _ => raise e
       | _ => raise e              (* not caught here: propagates *)
       end) ;;
  if (material_id =? "INVALID")%string || (material_id =? "NOT_FOUND")%string
  then raise (SAPNotFoundError
                ("Material with ID '" ++ material_id ++ "' not found."))
  else if (material_id =? "ERROR_READ")%string
  then raise (SAPOperationError
                ("Failed to read data for material '" ++ material_id
                   ++ "' (simulated)."))
  else ret [("material_id", JStr material_id);
            ("description", JStr ("Sample Material " ++ material_id));
            ("quantity", JInt 100);
            ("unit", JStr "EA");
            ("plant", JStr "1000")].

(* ------------------------------------------------------------------ *)
(** ** Decimal formatting: the format spec [05d] *)

Definition digit_char (d : Z) : ascii := ascii_of_nat (48 + Z.to_nat d).

(** Decimal digits of a non-negative [n], most significant first, pushed
    in front of [acc]; one digit per unit of fuel. *)
Fixpoint dec_digits (fuel : nat) (n : Z) (acc : string) : string :=
  match fuel with
  | O => acc
  | S fuel' =>
      let acc' := String (digit_char (n mod 10)) acc in
      if n / 10 =? 0 then acc' else dec_digits fuel' (n / 10) acc'
  end.

(** [str(n)] for [n >= 0]; a number below [2 ^ fuel] has at most [fuel]
    decimal digits. *)
Definition str_of_nonneg (n : Z) : string :=
  dec_digits (S (Z.to_nat (Z.log2 n))) n "".

Fixpoint zeros (k : nat) : string :=
  match k with
  | O => ""
  | S k' => String "0" (zeros k')
  end.

(** [s.rjust(width, '0')] *)
Definition zfill (width : nat) (s : string) : string :=
  zeros (width - String.length s) ++ s.

(** [f"{n:05d}"]: the sign, if any, comes before the padding. *)
Definition format_05d (n : Z) : string :=
  if n <? 0
  then "-" ++ zfill 4 (str_of_nonneg (- n))
  else zfill 5 (str_of_nonneg n).

(** [int(s)] on a string of decimal digits, continuing from [acc]. *)
Fixpoint dec_value_from (acc : Z) (s : string) : Z :=
  match s with
  | EmptyString => acc
  | String c rest =>
      dec_value_from (acc * 10 + (Z.of_nat (nat_of_ascii c) - 48)) rest
  end.

Definition is_digit (c : ascii) : bool :=
  let k := nat_of_ascii c in (48 <=? k)%nat && (k <=? 57)%nat.

Fixpoint all_digits (s : string) : bool :=
  match s with
  | EmptyString => true
  | String c rest => is_digit c && all_digits rest
  end.

(** The regular expression [SO\d{5}], anchored at both ends. *)
Definition matches_SO_d5 (s : string) : bool :=
  match s with
  | String "S" (String "O" rest) =>
      (String.length rest =? 5)%nat && all_digits rest
  | _ => false
  end.

(** [needle in s] *)
Fixpoint str_contains (needle s : string) : bool :=
  String.prefix needle s
  || match s with
     | EmptyString => false
     | String _ rest => str_contains needle rest
     end.

(* ------------------------------------------------------------------ *)
(** ** create_sales_order *)

Section SalesOrder.

(** The interpreter's [hash] on [str] (fixed for the life of a process)
    and [str] on a dict. *)
Variable py_hash : string -> Z.
Variable py_str : dict -> string.

Definition simulated_order_id (order_data : dict) : string :=
  "SO" ++ format_05d (Z.abs (py_hash (py_str order_data)) mod 100000).

Definition create_sales_order (order_data : dict) : M dict :=
  record_call (CallCreateSalesOrder order_data) ;;
  try_except
    (conn <- connect_to_sap ;;
     if negb (truthy conn)
     then raise (SAPConnectionError
       "Connection not established for create_sales_order (unexpected internal state)")
     else ret tt)
    (fun e =>
       match e with
       | SAPConnectionError _ => raise e
       | _ => raise e            (* not caught here: propagates *)
       end) ;;
  let customer_id := dict_get "customer_id" order_data in
  let items := dict_get "items" order_data in
  if negb (truthy customer_id) || negb (truthy items)
  then raise (SAPOperationError
                "Invalid order data: customer_id and items are required.")
  else if eq_str customer_id "FAIL_CUSTOMER"
  then raise (SAPOperationError
         ("Customer '" ++ fmt_str customer_id
            ++ "' is not valid for sales order creation."))
  else ret [("status", JStr "success");
            ("order_id", JStr (simulated_order_id order_data));
            ("message",
             JStr "Sales order created successfully in SAP (simulated).")].

End SalesOrder.

(* ------------------------------------------------------------------ *)
(** ** auth.py *)

(** A Flask view result [(jsonify(body), status)]. *)
Record response : Type := {
  body : json;
  status_code : Z
}.

Definition jsonify (d : dict) : json := JObj d.

(** [a == b] on values that are a [str] or [None]. *)
Definition opt_str_eqb (a b : option string) : bool :=
  match a, b with
  | Some x, Some y => (x =? y)%string
  | None, None => true
  | _, _ => false
  end.

Definition unauthorized : response :=
  {| body := jsonify [("message",
                       JStr "Unauthorized: Invalid or missing API Key")];
     status_code := 401 |}.

Definition api_key_required {A : Type} (f : A -> M response) (args : A)
  : M response :=
  req <- get_request ;;
  s <- get_settings ;;
  let api_key := x_api_key req in
  if truthy (of_opt_str api_key) && opt_str_eqb api_key (API_KEY s)
  then f args
  else ret unauthorized.

(* ------------------------------------------------------------------ *)
(** ** app.py: the two route handlers *)

Definition error_response (msg : string) (status : Z) : response :=
  {| body := jsonify [("error", JStr msg)]; status_code := status |}.

(** The [except] clauses of [get_material], first match first. *)
Definition get_material_except (e : exn) : M response :=
  match e with
  | SAPNotFoundError msg => ret (error_response msg 404)
  | SAPConnectionError msg =>
      ret (error_response ("SAP connection error: " ++ msg) 503)
  | SAPOperationError msg =>
      ret (error_response ("SAP operation error: " ++ msg) 500)
  | OtherException _ =>
      ret (error_response "An unexpected error occurred" 500)
  end.

(** The body of [get_material], with the backend function it calls as a
    parameter ([sap_service.read_material_data] in the application). *)
Definition get_material_with (read : string -> M dict) (material_id : string)
  : M response :=
  try_except
    (material_data <- read material_id ;;
     ret {| body := jsonify material_data; status_code := 200 |})
    get_material_except.

Definition lift_result {A} (r : result A) : M A := fun w => (r, w).

(** The [except] clauses of [create_sales_order_api]; a not-found failure
    has no clause of its own and falls to [except Exception]. *)
Definition sales_order_except (e : exn) : M response :=
  match e with
  | SAPConnectionError msg =>
      ret (error_response ("SAP connection error: " ++ msg) 503)
  | SAPOperationError msg =>
      ret (error_response ("SAP operation error: " ++ msg) 400)
  | SAPNotFoundError _ | OtherException _ =>
      ret (error_response "An unexpected error occurred" 500)
  end.

(** The body of [create_sales_order_api], with the backend function it
    calls as a parameter ([sap_service.create_sales_order] in the
    application). *)
Definition create_sales_order_api_with (create : dict -> M dict) (_ : unit)
  : M response :=
  try_except
    (req <- get_request ;;
     data <- lift_result (get_json req) ;;
     if negb (truthy data) || negb (is_dict data)
     then ret (error_response "Invalid input: JSON data expected" 400)
     else
       match data with
       | JObj d =>
           if negb (dict_contains "details" d)
           then ret (error_response
                       "Invalid input: 'details' key missing in JSON payload"
                       400)
           else
             order_confirmation <- create d ;;
             ret {| body := jsonify order_confirmation; status_code := 201 |}
       | _ =>          (* excluded by [isinstance(data, dict)] above *)
           ret (error_response "Invalid input: JSON data expected" 400)
       end)
    sales_order_except.

(** The routes as registered: the auth decorator around the bodies. *)
Definition get_material : string -> M response :=
  api_key_required (get_material_with read_material_data).

Definition create_sales_order_api (py_hash : string -> Z)
    (py_str : dict -> string) : unit -> M response :=
  api_key_required
    (create_sales_order_api_with (create_sales_order py_hash py_str)).

(* ------------------------------------------------------------------ *)
(** ** Vocabulary of the statements *)

(** The exception raised by [connect_to_sap] on the fault sentinel. *)
Definition connection_fault : exn :=
  SAPConnectionError "Failed to connect to SAP: Host unreachable (simulated)".

(** The connect step shared by both operations: the [try] block around
    [connect_to_sap], whatever the message of its unreachable branch. *)
Definition connect_step (msg : string) : M unit :=
  try_except
    (conn <- connect_to_sap ;;
     if negb (truthy conn)
     then raise (SAPConnectionError msg)
     else ret tt)
    (fun e =>
       match e with
       | SAPConnectionError _ => raise e
       | _ => raise e
       end).

(** Material identifiers with a simulated failure attached. *)
Definition reserved_material_ids : list string :=
  ["INVALID"; "NOT_FOUND"; "ERROR_READ"].

(** The catch-all answer of both handlers. *)
Definition unexpected_error : response :=
  error_response "An unexpected error occurred" 500.

(** What is left of the sales-order handler once validation has passed. *)
Definition forward_to_backend (create : dict -> M dict) (d : dict)
  : M response :=
  try_except
    (order_confirmation <- create d ;;
     ret {| body := jsonify order_confirmation; status_code := 201 |})
    sales_order_except.

(** Concrete worlds and interpreter functions for the examples. *)
Definition sample_settings (host key : option string) : Settings :=
  {| SAP_HOST := host;
     SAP_CLIENT := Some "100";
     SAP_USER := Some "rfc_user";
     SAP_PASSWORD := None;
     SAP_SYSTEM_NUMBER := Some "00";
     API_KEY := key |}.

Definition sample_world (host key header : option string)
    (parsed : result json) : world :=
  {| settings := sample_settings host key;
     request := {| x_api_key := header; get_json := parsed |};
     calls := [] |}.

Fixpoint sample_hash_from (acc : Z) (s : string) : Z :=
  match s with
  | EmptyString => acc
  | String c rest =>
      sample_hash_from ((acc * 1000003 + Z.of_nat (nat_of_ascii c)) mod 2 ^ 64) rest
  end.

(** A stand-in for [hash]: a signed 64-bit polynomial hash. *)
Definition sample_hash (s : string) : Z :=
  sample_hash_from 0 s - 2 ^ 63.

(** A stand-in for [str] on dicts: the keys, each followed by a colon. *)
Definition sample_str (d : dict) : string :=
  fold_right (fun kv acc => fst kv ++ ":" ++ acc) "" d.

Definition sample_order : dict :=
  [("customer_id", JStr "CUST001");
   ("items", JArr [JObj [("material_id", JStr "MAT001");
                         ("quantity", JInt 10)]]);
   ("details", JObj [("notes", JStr "Test order")])].

(* ------------------------------------------------------------------ *)
(** ** app.py: the global error handlers and the root route *)

(** Each handler receives the HTTP error; [error] is its [str(error)]. *)
Definition bad_request_error (error : string) : response :=
  {| body := jsonify [("error", JStr "Bad Request"); ("message", JStr error)];
     status_code := 400 |}.

Definition unauthorized_error (error : string) : response :=
  {| body := jsonify [("error", JStr "Unauthorized"); ("message", JStr error)];
     status_code := 401 |}.

Definition not_found_error (error : string) : response :=
  {| body := jsonify [("error", JStr "Not Found");
                      ("message",
                       JStr "The requested URL was not found on the server.")];
     status_code := 404 |}.

Definition method_not_allowed_error (error : string) : response :=
  {| body := jsonify [("error", JStr "Method Not Allowed");
                      ("message", JStr error)];
     status_code := 405 |}.

Definition internal_server_error (error : string) : response :=
  {| body := jsonify [("error", JStr "Internal Server Error");
                      ("message",
                       JStr "An unexpected error occurred on the server.")];
     status_code := 500 |}.

(** The registrations made by [@app.errorhandler(code)]. *)
Definition error_handlers : list (Z * (string -> response)) :=
  [(400, bad_request_error);
   (401, unauthorized_error);
   (404, not_found_error);
   (405, method_not_allowed_error);
   (500, internal_server_error)].

(* ------------------------------------------------------------------ *)
(** ** config.py *)

(** The process environment, once [load_dotenv] has run. *)
Definition environ : Type := string -> option string.

(** [os.getenv(name)] *)
Definition getenv (env : environ) (name : string) : option string := env name.

(** [os.getenv(name, default)] *)
Definition getenv_default (env : environ) (name default : string) : string :=
  match env name with
  | Some v => v
  | None => default
  end.

(** [str.lower] on the ASCII letters; other bytes are kept.  On the
    question whether the result is ["true"] this agrees with Python's
    [lower]: no character outside ASCII is lowered to one of the letters
    t, r, u, e. *)
Definition ascii_lower (c : ascii) : ascii :=
  let n := nat_of_ascii c in
  if ((65 <=? n) && (n <=? 90))%nat then ascii_of_nat (n + 32) else c.

Fixpoint str_lower (s : string) : string :=
  match s with
  | EmptyString => EmptyString
  | String c rest => String (ascii_lower c) (str_lower rest)
  end.

(** The attributes of [Settings] that have a default. *)
Record FlaskSettings : Type := {
  FLASK_APP : string;
  FLASK_ENV : string;
  DEBUG : bool
}.

Definition load_settings (env : environ) : Settings :=
  {| SAP_HOST := getenv env "SAP_HOST";
     SAP_CLIENT := getenv env "SAP_CLIENT";
     SAP_USER := getenv env "SAP_USER";
     SAP_PASSWORD := getenv env "SAP_PASSWORD";
     SAP_SYSTEM_NUMBER := getenv env "SAP_SYSTEM_NUMBER";
     API_KEY := getenv env "API_KEY" |}.

Definition load_flask_settings (env : environ) : FlaskSettings :=
  {| FLASK_APP := getenv_default env "FLASK_APP" "sap_middleware/app.py";
     FLASK_ENV := getenv_default env "FLASK_ENV" "development";
     DEBUG := (str_lower (getenv_default env "DEBUG" "True") =? "true")%string |}.

(* ------------------------------------------------------------------ *)
(** ** Further vocabulary *)

(** The request carries a non-empty key equal to the configured one. *)
Definition key_accepted (w : world) : Prop :=
  exists key,
    x_api_key (request w) = Some key /\
    key <> "" /\
    API_KEY (settings w) = Some key.

(** The record [read_material_data] builds for an identifier. *)
Definition material_record (material_id : string) : dict :=
  [("material_id", JStr material_id);
   ("description", JStr ("Sample Material " ++ material_id));
   ("quantity", JInt 100);
   ("unit", JStr "EA");
   ("plant", JStr "1000")].

(** The confirmation [create_sales_order] builds for an identifier. *)
Definition confirmation_of (order_id : string) : dict :=
  [("status", JStr "success");
   ("order_id", JStr order_id);
   ("message", JStr "Sales order created successfully in SAP (simulated).")].

(** The identifier as the specification words its derivation: the hash
    of the payload's string form reduced modulo 100000 (Python's [%],
    whose result has the sign of the divisor) and zero-padded, with no
    absolute value taken. *)
Definition order_id_as_specified (py_hash : string -> Z)
    (py_str : dict -> string) (order_data : dict) : string :=
  "SO" ++ format_05d (py_hash (py_str order_data) mod 100000).

(** A sample environment: only the listed variables are set. *)
Definition sample_env (vars : list (string * string)) : environ :=
  fun name =>
    match find (fun kv => (fst kv =? name)%string) vars with
    | Some kv => Some (snd kv)
    | None => None
    end.

(* ------------------------------------------------------------------ *)
(** * Properties *)

(** ** The monad *)

Lemma bind_ok {A B} (m : M A) (k : A -> M B) w a w' :
  m w = (Ok a, w') -> bind m k w = k a w'.
Proof. intros H. unfold bind. now rewrite H. Qed.

Lemma bind_raise {A B} (m : M A) (k : A -> M B) w e w' :
  m w = (Raise e, w') -> bind m k w = (Raise e, w').
Proof. intros H. unfold bind. now rewrite H. Qed.

Lemma try_except_ok {A} (m : M A) h w a w' :
  m w = (Ok a, w') -> try_except m h w = (Ok a, w').
Proof. intros H. unfold try_except. now rewrite H. Qed.

Lemma try_except_raise {A} (m : M A) h w e w' :
  m w = (Raise e, w') -> try_except m h w = h e w'.
Proof. intros H. unfold try_except. now rewrite H. Qed.

(** ** Strings *)

Lemma prefix_app (n q : string) : String.prefix n (n ++ q) = true.
Proof.
  induction n as [|c n IH]; simpl.
  - now destruct q.
  - destruct (ascii_dec c c); [exact IH | contradiction].
Qed.

Lemma str_contains_prefix (n s : string) :
  String.prefix n s = true -> str_contains n s = true.
Proof. intros H. destruct s; cbn [str_contains]; rewrite H; reflexivity. Qed.

Lemma str_contains_app (p n q : string) :
  str_contains n (p ++ n ++ q) = true.
Proof.
  induction p as [|c p IH].
  - change ("" ++ n ++ q) with (n ++ q).
    apply str_contains_prefix, prefix_app.
  - change (String c p ++ n ++ q) with (String c (p ++ n ++ q)).
    cbn [str_contains]. rewrite IH. apply orb_true_r.
Qed.

Lemma append_empty_r (s : string) : s ++ "" = s.
Proof. induction s as [|c s IH]; simpl; [reflexivity | now rewrite IH]. Qed.

Lemma str_contains_suffix (p n : string) : str_contains n (p ++ n) = true.
Proof.
  rewrite <- (append_empty_r n) at 2. apply str_contains_app.
Qed.

(** ** connect_to_sap *)

Lemma host_check (h : option string) :
  eq_str (of_opt_str h) "fail_connection" = true <-> h = Some "fail_connection".
Proof.
  destruct h as [s|]; simpl.
  - rewrite String.eqb_eq. split; congruence.
  - split; discriminate.
Qed.

Lemma option_eq_dec_host (h : option string) :
  {h = Some "fail_connection"} + {h <> Some "fail_connection"}.
Proof.
  destruct h as [s|]; [| right; discriminate].
  destruct (string_dec s "fail_connection") as [-> | H];
    [left; reflexivity | right; congruence].
Qed.

Lemma connect_to_sap_fail w :
  SAP_HOST (settings w) = Some "fail_connection" ->
  connect_to_sap w = (Raise connection_fault, add_call CallConnect w).
Proof.
  intros H. unfold connect_to_sap, bind, record_call, get_settings.
  cbn [settings add_call]. rewrite H. reflexivity.
Qed.

Lemma connect_to_sap_ok w :
  SAP_HOST (settings w) <> Some "fail_connection" ->
  connect_to_sap w =
    (Ok (JObj [("status", JStr "connected");
               ("host", of_opt_str (SAP_HOST (settings w)))]),
     add_call CallConnect w).
Proof.
  intros H. unfold connect_to_sap, bind, record_call, get_settings.
  cbn [settings add_call].
  destruct (eq_str (of_opt_str (SAP_HOST (settings w))) "fail_connection") eqn:E.
  - apply host_check in E. contradiction.
  - reflexivity.
Qed.

Lemma connect_step_fail msg w :
  SAP_HOST (settings w) = Some "fail_connection" ->
  connect_step msg w = (Raise connection_fault, add_call CallConnect w).
Proof.
  intros H. unfold connect_step.
  erewrite try_except_raise.
  2: { apply bind_raise. now apply connect_to_sap_fail. }
  reflexivity.
Qed.

Lemma connect_step_ok msg w :
  SAP_HOST (settings w) <> Some "fail_connection" ->
  connect_step msg w = (Ok tt, add_call CallConnect w).
Proof.
  intros H. unfold connect_step.
  apply try_except_ok.
  erewrite bind_ok by (now apply connect_to_sap_ok).
  reflexivity.
Qed.

(** ** read_material_data *)

Lemma read_material_data_unfold material_id w :
  read_material_data material_id w =
    bind (connect_step
       "Connection not established for read_material_data (unexpected internal state)")
      (fun _ =>
         if (material_id =? "INVALID")%string
            || (material_id =? "NOT_FOUND")%string
         then raise (SAPNotFoundError
                       ("Material with ID '" ++ material_id ++ "' not found."))
         else if (material_id =? "ERROR_READ")%string
         then raise (SAPOperationError
                       ("Failed to read data for material '" ++ material_id
                          ++ "' (simulated)."))
         else ret [("material_id", JStr material_id);
                   ("description", JStr ("Sample Material " ++ material_id));
                   ("quantity", JInt 100);
                   ("unit", JStr "EA");
                   ("plant", JStr "1000")])
      (add_call (CallReadMaterial material_id) w).
Proof. reflexivity. Qed.

Lemma not_reserved material_id :
  ~ In material_id reserved_material_ids ->
  (material_id =? "INVALID")%string = false /\
  (material_id =? "NOT_FOUND")%string = false /\
  (material_id =? "ERROR_READ")%string = false.
Proof.
  unfold reserved_material_ids. cbn [In]. intros H.
  repeat split; apply String.eqb_neq; intros ->; apply H; auto.
Qed.

(** C1. For every material identifier outside the reserved set
    {"INVALID", "NOT_FOUND", "ERROR_READ"}, when the configured host is
    not the connection-fault sentinel, [read_material_data] returns a
    record whose [material_id] is the input identifier, whose description
    is "Sample Material " followed by the identifier (so it embeds it),
    and whose quantity, unit and plant are 100, "EA" and "1000". *)
Theorem read_material_data_synthesizes_record :
  forall (w : world) (material_id : string),
    SAP_HOST (settings w) <> Some "fail_connection" ->
    ~ In material_id reserved_material_ids ->
    exists (record : dict) (w' : world) (description : string),
      read_material_data material_id w = (Ok record, w') /\
      dict_get "material_id" record = JStr material_id /\
      dict_get "description" record = JStr description /\
      description = "Sample Material " ++ material_id /\
      str_contains material_id description = true /\
      dict_get "quantity" record = JInt 100 /\
      dict_get "unit" record = JStr "EA" /\
      dict_get "plant" record = JStr "1000".
Proof.
  intros w material_id Hhost Hid.
  destruct (not_reserved _ Hid) as (E1 & E2 & E3).
  eexists _, _, ("Sample Material " ++ material_id).
  split.
  - rewrite read_material_data_unfold.
    erewrite bind_ok by (apply connect_step_ok; exact Hhost).
    rewrite E1, E2, E3. cbn [orb]. reflexivity.
  - repeat split.
    apply str_contains_suffix.
Qed.

Lemma read_material_data_synthesizes_record_witness :
  let w := sample_world (Some "sap.example.com") (Some "k") (Some "k")
             (Ok JNull) in
  SAP_HOST (settings w) <> Some "fail_connection" /\
  ~ In "TESTMAT" reserved_material_ids /\
  exists (record : dict) (w' : world) (description : string),
    read_material_data "TESTMAT" w = (Ok record, w') /\
    dict_get "material_id" record = JStr "TESTMAT" /\
    dict_get "description" record = JStr description /\
    description = "Sample Material TESTMAT" /\
    str_contains "TESTMAT" description = true /\
    dict_get "quantity" record = JInt 100 /\
    dict_get "unit" record = JStr "EA" /\
    dict_get "plant" record = JStr "1000".
Proof.
  intros w.
  assert (Hhost : SAP_HOST (settings w) <> Some "fail_connection")
    by discriminate.
  assert (Hid : ~ In "TESTMAT" reserved_material_ids).
  { cbn. intros [H | [H | [H | []]]]; discriminate H. }
  split; [exact Hhost | split; [exact Hid |]].
  exact (read_material_data_synthesizes_record w "TESTMAT" Hhost Hid).
Defined.

Example read_material_data_TESTMAT :
  fst (read_material_data "TESTMAT"
         (sample_world None (Some "k") (Some "k") (Ok JNull)))
  = Ok [("material_id", JStr "TESTMAT");
        ("description", JStr "Sample Material TESTMAT");
        ("quantity", JInt 100);
        ("unit", JStr "EA");
        ("plant", JStr "1000")].
Proof. reflexivity. Qed.

(** C6. With a successful connect step, [read_material_data "INVALID"]
    and [read_material_data "NOT_FOUND"] both raise the not-found failure
    with a message that contains the identifier, and
    [read_material_data "ERROR_READ"] raises the operation failure. *)
Theorem read_material_data_sentinels :
  forall (w : world),
    SAP_HOST (settings w) <> Some "fail_connection" ->
    (exists msg,
        fst (read_material_data "INVALID" w) = Raise (SAPNotFoundError msg) /\
        str_contains "INVALID" msg = true) /\
    (exists msg,
        fst (read_material_data "NOT_FOUND" w) = Raise (SAPNotFoundError msg) /\
        str_contains "NOT_FOUND" msg = true) /\
    (exists msg,
        fst (read_material_data "ERROR_READ" w)
          = Raise (SAPOperationError msg)).
Proof.
  intros w Hhost.
  repeat split; eexists;
    rewrite read_material_data_unfold;
    (erewrite bind_ok by (apply connect_step_ok; exact Hhost));
    try split; reflexivity.
Qed.

Lemma read_material_data_sentinels_witness :
  let w := sample_world (Some "sap.example.com") (Some "k") (Some "k")
             (Ok JNull) in
  SAP_HOST (settings w) <> Some "fail_connection" /\
  (exists msg,
      fst (read_material_data "INVALID" w) = Raise (SAPNotFoundError msg) /\
      str_contains "INVALID" msg = true) /\
  (exists msg,
      fst (read_material_data "NOT_FOUND" w) = Raise (SAPNotFoundError msg) /\
      str_contains "NOT_FOUND" msg = true) /\
  (exists msg,
      fst (read_material_data "ERROR_READ" w) = Raise (SAPOperationError msg)).
Proof.
  intros w.
  assert (Hhost : SAP_HOST (settings w) <> Some "fail_connection")
    by discriminate.
  split; [exact Hhost | exact (read_material_data_sentinels w Hhost)].
Defined.

Example read_material_data_INVALID :
  fst (read_material_data "INVALID"
         (sample_world None (Some "k") (Some "k") (Ok JNull)))
  = Raise (SAPNotFoundError "Material with ID 'INVALID' not found.").
Proof. reflexivity. Qed.

Example read_material_data_ERROR_READ :
  fst (read_material_data "ERROR_READ"
         (sample_world None (Some "k") (Some "k") (Ok JNull)))
  = Raise (SAPOperationError
             "Failed to read data for material 'ERROR_READ' (simulated).").
Proof. reflexivity. Qed.

(** ** Decimal formatting *)

Example format_05d_42 : format_05d 42 = "00042".
Proof. reflexivity. Qed.

Example format_05d_99999 : format_05d 99999 = "99999".
Proof. reflexivity. Qed.

Example format_05d_0 : format_05d 0 = "00000".
Proof. reflexivity. Qed.

Example format_05d_neg : format_05d (-42) = "-0042".
Proof. reflexivity. Qed.

Example format_05d_wide : format_05d 1234567 = "1234567".
Proof. reflexivity. Qed.

Lemma digit_char_is_digit (d : Z) :
  0 <= d < 10 -> is_digit (digit_char d) = true.
Proof.
  intros H.
  assert (C : d = 0 \/ d = 1 \/ d = 2 \/ d = 3 \/ d = 4 \/
              d = 5 \/ d = 6 \/ d = 7 \/ d = 8 \/ d = 9) by lia.
  repeat (destruct C as [-> | C]; [reflexivity |]).
  subst d. reflexivity.
Qed.

Lemma all_digits_dec_digits (fuel : nat) :
  forall n acc,
    all_digits acc = true -> all_digits (dec_digits fuel n acc) = true.
Proof.
  induction fuel as [|fuel IH]; intros n acc Hacc; cbn [dec_digits].
  - exact Hacc.
  - assert (Hstep : all_digits (String (digit_char (n mod 10)) acc) = true).
    { cbn [all_digits]. rewrite Hacc, digit_char_is_digit.
      - reflexivity.
      - apply Z.mod_pos_bound. lia. }
    destruct (n / 10 =? 0); [exact Hstep | apply IH, Hstep].
Qed.

(** A number below [10 ^ k] is written with at most [k] digits, provided
    the fuel covers its binary size. *)
Lemma length_dec_digits (fuel : nat) :
  forall (k : nat) n acc,
    (1 <= k)%nat ->
    0 <= n < 2 ^ Z.of_nat fuel ->
    n < 10 ^ Z.of_nat k ->
    (String.length (dec_digits fuel n acc) <= k + String.length acc)%nat.
Proof.
  induction fuel as [|fuel IH]; intros k n acc Hk Hn Hlt; cbn [dec_digits].
  - lia.
  - destruct (n / 10 =? 0) eqn:E.
    + cbn [String.length]. lia.
    + apply Z.eqb_neq in E.
      assert (Hq : 0 < n / 10).
      { assert (0 <= n / 10) by (apply Z.div_pos; lia). lia. }
      assert (Hn10 : 10 <= n).
      { destruct (Z_lt_le_dec n 10) as [Hs|Hs]; [|exact Hs].
        rewrite Z.div_small in Hq by lia. lia. }
      destruct k as [|[|k]]; [lia | simpl in Hlt; lia |].
      specialize (IH (S k) (n / 10) (String (digit_char (n mod 10)) acc)).
      cbn [String.length] in IH.
      assert (H2 : n / 10 < 2 ^ Z.of_nat fuel).
      { apply Z.div_lt_upper_bound; [lia |].
        replace (Z.of_nat (S fuel)) with (Z.succ (Z.of_nat fuel)) in Hn by lia.
        rewrite Z.pow_succ_r in Hn by lia. lia. }
      assert (H10 : n / 10 < 10 ^ Z.of_nat (S k)).
      { apply Z.div_lt_upper_bound; [lia |].
        replace (Z.of_nat (S (S k))) with (Z.succ (Z.of_nat (S k))) in Hlt by lia.
        rewrite Z.pow_succ_r in Hlt by lia. exact Hlt. }
      assert (IH' := IH ltac:(lia) ltac:(lia) H10). lia.
Qed.

Lemma str_of_nonneg_fuel (n : Z) :
  0 <= n -> n < 2 ^ Z.of_nat (S (Z.to_nat (Z.log2 n))).
Proof.
  intros Hn.
  destruct (Z.eq_dec n 0) as [-> | Hnz]; [reflexivity |].
  replace (Z.of_nat (S (Z.to_nat (Z.log2 n)))) with (Z.succ (Z.log2 n)).
  - apply Z.log2_spec. lia.
  - assert (0 <= Z.log2 n) by apply Z.log2_nonneg. lia.
Qed.

Lemma length_append (s t : string) :
  String.length (s ++ t) = (String.length s + String.length t)%nat.
Proof. induction s as [|c s IH]; simpl; [reflexivity | now rewrite IH]. Qed.

Lemma all_digits_append (s t : string) :
  all_digits (s ++ t) = all_digits s && all_digits t.
Proof.
  induction s as [|c s IH]; simpl; [reflexivity |].
  now rewrite IH, andb_assoc.
Qed.

Lemma length_zeros (k : nat) : String.length (zeros k) = k.
Proof. induction k as [|k IH]; simpl; [reflexivity | now rewrite IH]. Qed.

Lemma all_digits_zeros (k : nat) : all_digits (zeros k) = true.
Proof. induction k as [|k IH]; simpl; [reflexivity | exact IH]. Qed.

(** Below 100000, [05d] gives exactly five decimal digits. *)
Lemma format_05d_five_digits (n : Z) :
  0 <= n < 100000 ->
  String.length (format_05d n) = 5%nat /\ all_digits (format_05d n) = true.
Proof.
  intros Hn. unfold format_05d.
  replace (n <? 0) with false by (symmetry; apply Z.ltb_ge; lia).
  unfold zfill.
  assert (Hlen : (String.length (str_of_nonneg n) <= 5)%nat).
  { unfold str_of_nonneg.
    pose proof (length_dec_digits (S (Z.to_nat (Z.log2 n))) 5 n "") as H.
    cbn [String.length] in H. rewrite Nat.add_0_r in H.
    apply H; [lia | split; [lia | apply str_of_nonneg_fuel; lia] |].
    change (10 ^ Z.of_nat 5) with 100000. lia. }
  split.
  - rewrite length_append, length_zeros. lia.
  - rewrite all_digits_append, all_digits_zeros.
    unfold str_of_nonneg. now rewrite all_digits_dec_digits.
Qed.

Lemma digit_char_value (d : Z) :
  0 <= d < 10 -> Z.of_nat (nat_of_ascii (digit_char d)) - 48 = d.
Proof.
  intros H. unfold digit_char. rewrite nat_ascii_embedding; lia.
Qed.

Lemma dec_value_dec_digits (fuel : nat) :
  forall n acc,
    0 <= n < 2 ^ Z.of_nat fuel ->
    dec_value_from 0 (dec_digits fuel n acc) = dec_value_from n acc.
Proof.
  induction fuel as [|fuel IH]; intros n acc Hn; cbn [dec_digits].
  - replace n with 0 by (simpl in Hn; lia). reflexivity.
  - assert (Hm : 0 <= n mod 10 < 10) by (apply Z.mod_pos_bound; lia).
    assert (Hdiv : n = 10 * (n / 10) + n mod 10) by (apply Z.div_mod; lia).
    destruct (n / 10 =? 0) eqn:E.
    + apply Z.eqb_eq in E. cbn [dec_value_from].
      rewrite digit_char_value by exact Hm. f_equal. lia.
    + rewrite IH.
      * cbn [dec_value_from]. rewrite digit_char_value by exact Hm.
        f_equal. lia.
      * split; [apply Z.div_pos; lia |].
        apply Z.div_lt_upper_bound; [lia |].
        replace (Z.of_nat (S fuel)) with (Z.succ (Z.of_nat fuel)) in Hn by lia.
        rewrite Z.pow_succ_r in Hn by lia. lia.
Qed.

Lemma dec_value_zeros (k : nat) (s : string) :
  dec_value_from 0 (zeros k ++ s) = dec_value_from 0 s.
Proof. induction k as [|k IH]; simpl; [reflexivity | exact IH]. Qed.

(** Reading back what [05d] wrote gives the number. *)
Lemma format_05d_value (n : Z) :
  0 <= n -> dec_value_from 0 (format_05d n) = n.
Proof.
  intros Hn. unfold format_05d.
  replace (n <? 0) with false by (symmetry; apply Z.ltb_ge; lia).
  unfold zfill. rewrite dec_value_zeros.
  unfold str_of_nonneg. rewrite dec_value_dec_digits.
  - reflexivity.
  - split; [exact Hn | apply str_of_nonneg_fuel; exact Hn].
Qed.

(** ** create_sales_order *)

Lemma eq_str_false (v : json) (s : string) :
  v <> JStr s -> eq_str v s = false.
Proof.
  intros H. destruct v; try reflexivity.
  simpl. apply String.eqb_neq. congruence.
Qed.

Lemma dict_get_absent (k : string) (d : dict) :
  dict_lookup k d = None -> truthy (dict_get k d) = false.
Proof. intros H. unfold dict_get. now rewrite H. Qed.

Lemma matches_SO_d5_intro (digits : string) :
  String.length digits = 5%nat ->
  all_digits digits = true ->
  matches_SO_d5 ("SO" ++ digits) = true.
Proof.
  intros Hlen Hdig. cbn. now rewrite Hlen, Hdig.
Qed.

Section SalesOrderFacts.

Variable py_hash : string -> Z.
Variable py_str : dict -> string.

Lemma create_sales_order_unfold order_data w :
  create_sales_order py_hash py_str order_data w =
    bind (connect_step
       "Connection not established for create_sales_order (unexpected internal state)")
      (fun _ =>
         if negb (truthy (dict_get "customer_id" order_data))
            || negb (truthy (dict_get "items" order_data))
         then raise (SAPOperationError
                "Invalid order data: customer_id and items are required.")
         else if eq_str (dict_get "customer_id" order_data) "FAIL_CUSTOMER"
         then raise (SAPOperationError
                ("Customer '" ++ fmt_str (dict_get "customer_id" order_data)
                   ++ "' is not valid for sales order creation."))
         else ret [("status", JStr "success");
                   ("order_id",
                    JStr (simulated_order_id py_hash py_str order_data));
                   ("message",
                    JStr "Sales order created successfully in SAP (simulated).")])
      (add_call (CallCreateSalesOrder order_data) w).
Proof. reflexivity. Qed.

(** Whatever happens, the stub leaves the settings and the request alone
    and adds its own entry and the connect attempt to the trace. *)
Lemma create_sales_order_world order_data w :
  snd (create_sales_order py_hash py_str order_data w)
  = add_call CallConnect (add_call (CallCreateSalesOrder order_data) w).
Proof.
  rewrite create_sales_order_unfold.
  set (w1 := add_call (CallCreateSalesOrder order_data) w).
  destruct (option_eq_dec_host (SAP_HOST (settings w1))) as [H | H].
  - erewrite bind_raise by (apply connect_step_fail; exact H). reflexivity.
  - erewrite bind_ok by (apply connect_step_ok; exact H).
    destruct (negb (truthy (dict_get "customer_id" order_data))
              || negb (truthy (dict_get "items" order_data)));
      [reflexivity |].
    destruct (eq_str (dict_get "customer_id" order_data) "FAIL_CUSTOMER");
      reflexivity.
Qed.

Lemma create_sales_order_valid order_data w :
  SAP_HOST (settings w) <> Some "fail_connection" ->
  truthy (dict_get "customer_id" order_data) = true ->
  dict_get "customer_id" order_data <> JStr "FAIL_CUSTOMER" ->
  truthy (dict_get "items" order_data) = true ->
  create_sales_order py_hash py_str order_data w
  = (Ok [("status", JStr "success");
         ("order_id", JStr (simulated_order_id py_hash py_str order_data));
         ("message",
          JStr "Sales order created successfully in SAP (simulated).")],
     add_call CallConnect (add_call (CallCreateSalesOrder order_data) w)).
Proof.
  intros Hhost Hc Hb Hi.
  rewrite create_sales_order_unfold.
  erewrite bind_ok by (apply connect_step_ok; exact Hhost).
  rewrite Hc, Hi, (eq_str_false _ _ Hb). reflexivity.
Qed.

Lemma simulated_order_id_pattern order_data :
  matches_SO_d5 (simulated_order_id py_hash py_str order_data) = true.
Proof.
  unfold simulated_order_id.
  destruct (format_05d_five_digits
              (Z.abs (py_hash (py_str order_data)) mod 100000)) as [Hl Hd].
  - apply Z.mod_pos_bound. lia.
  - now apply matches_SO_d5_intro.
Qed.

(** C3 (amended). For every valid sales order (truthy [customer_id] other than the
    blocked-customer sentinel, truthy [items]) and a host that is not
    the fault sentinel, [create_sales_order] returns a confirmation whose
    [order_id] matches [SO\\d{5}] and is "SO" followed by the absolute
    value of the hash of the string form of the whole payload, reduced
    modulo 100000 and zero-padded to five digits; calling it again with
    the same input gives the same confirmation, hence the same
    identifier. *)
Theorem create_sales_order_identifier :
  forall (w : world) (order_data : dict),
    SAP_HOST (settings w) <> Some "fail_connection" ->
    truthy (dict_get "customer_id" order_data) = true ->
    dict_get "customer_id" order_data <> JStr "FAIL_CUSTOMER" ->
    truthy (dict_get "items" order_data) = true ->
    exists (confirmation : dict) (w' : world) (order_id : string),
      create_sales_order py_hash py_str order_data w = (Ok confirmation, w') /\
      dict_get "status" confirmation = JStr "success" /\
      dict_get "order_id" confirmation = JStr order_id /\
      matches_SO_d5 order_id = true /\
      order_id
        = "SO" ++ format_05d (Z.abs (py_hash (py_str order_data)) mod 100000) /\
      fst (create_sales_order py_hash py_str order_data w') = Ok confirmation.
Proof.
  intros w order_data Hhost Hc Hb Hi.
  eexists _, _, _. split.
  - apply create_sales_order_valid; assumption.
  - repeat split.
    + apply simulated_order_id_pattern.
    + rewrite create_sales_order_valid; try assumption. reflexivity.
Qed.

(** C4. When the configured host is the fault-injection sentinel
    ["fail_connection"], [read_material_data] and [create_sales_order]
    both raise the connection failure for every input, whatever the
    material identifier or order payload (reserved identifiers, empty or
    blocked orders included): the connect step comes first. *)
Theorem connection_fault_precedes_all_checks :
  forall (w : world) (material_id : string) (order_data : dict),
    SAP_HOST (settings w) = Some "fail_connection" ->
    fst (read_material_data material_id w) = Raise connection_fault /\
    fst (create_sales_order py_hash py_str order_data w)
      = Raise connection_fault.
Proof.
  intros w material_id order_data H. split.
  - rewrite read_material_data_unfold.
    erewrite bind_raise by (apply connect_step_fail; exact H).
    reflexivity.
  - rewrite create_sales_order_unfold.
    erewrite bind_raise by (apply connect_step_fail; exact H).
    reflexivity.
Qed.

(** C5 (amended). Once the connect step has succeeded,
    [create_sales_order] raises the operation failure with the message
    "Invalid order data: customer_id and items are required." whenever
    [customer_id] or [items] is absent or falsy, and raises the operation
    failure with the message "Customer 'FAIL_CUSTOMER' is not valid for
    sales order creation." whenever [customer_id] is the blocked-customer
    sentinel and [items] is non-empty. *)
Theorem create_sales_order_rejections :
  forall (w : world) (order_data : dict),
    SAP_HOST (settings w) <> Some "fail_connection" ->
    (truthy (dict_get "customer_id" order_data) = false \/
     truthy (dict_get "items" order_data) = false ->
     fst (create_sales_order py_hash py_str order_data w)
     = Raise (SAPOperationError
                "Invalid order data: customer_id and items are required.")) /\
    (dict_get "customer_id" order_data = JStr "FAIL_CUSTOMER" ->
     truthy (dict_get "items" order_data) = true ->
     fst (create_sales_order py_hash py_str order_data w)
     = Raise (SAPOperationError
                "Customer 'FAIL_CUSTOMER' is not valid for sales order creation.")).
Proof.
  intros w order_data Hhost. split.
  - intros Hmiss.
    rewrite create_sales_order_unfold.
    erewrite bind_ok by (apply connect_step_ok; exact Hhost).
    destruct Hmiss as [-> | ->]; [| rewrite orb_true_r]; reflexivity.
  - intros Hc Hi.
    rewrite create_sales_order_unfold.
    erewrite bind_ok by (apply connect_step_ok; exact Hhost).
    rewrite Hc in *. rewrite Hi. reflexivity.
Qed.

End SalesOrderFacts.

Lemma create_sales_order_identifier_witness :
  let w := sample_world (Some "sap.example.com") (Some "k") (Some "k")
             (Ok (JObj sample_order)) in
  SAP_HOST (settings w) <> Some "fail_connection" /\
  truthy (dict_get "customer_id" sample_order) = true /\
  dict_get "customer_id" sample_order <> JStr "FAIL_CUSTOMER" /\
  truthy (dict_get "items" sample_order) = true /\
  exists (confirmation : dict) (w' : world) (order_id : string),
    create_sales_order sample_hash sample_str sample_order w
      = (Ok confirmation, w') /\
    dict_get "status" confirmation = JStr "success" /\
    dict_get "order_id" confirmation = JStr order_id /\
    matches_SO_d5 order_id = true /\
    order_id
      = "SO" ++ format_05d
                  (Z.abs (sample_hash (sample_str sample_order)) mod 100000) /\
    fst (create_sales_order sample_hash sample_str sample_order w')
      = Ok confirmation.
Proof.
  intros w.
  assert (Hhost : SAP_HOST (settings w) <> Some "fail_connection")
    by discriminate.
  assert (Hc : truthy (dict_get "customer_id" sample_order) = true)
    by reflexivity.
  assert (Hb : dict_get "customer_id" sample_order <> JStr "FAIL_CUSTOMER")
    by discriminate.
  assert (Hi : truthy (dict_get "items" sample_order) = true)
    by reflexivity.
  repeat (split; [assumption |]).
  exact (create_sales_order_identifier sample_hash sample_str w sample_order
           Hhost Hc Hb Hi).
Defined.

(** C3, as stated, fails on the code.  The code takes the absolute value
    of the hash before the reduction; for a payload whose hash is -42 it
    returns "SO00042", whereas reducing the hash itself modulo 100000 and
    padding gives "SO99958". *)
Lemma create_sales_order_identifier_counterexample :
  let w := sample_world (Some "sap.example.com") (Some "k") (Some "k")
             (Ok (JObj sample_order)) in
  let negative_hash : string -> Z := fun _ => -42 in
  truthy (dict_get "customer_id" sample_order) = true /\
  dict_get "customer_id" sample_order <> JStr "FAIL_CUSTOMER" /\
  truthy (dict_get "items" sample_order) = true /\
  fst (create_sales_order negative_hash sample_str sample_order w)
  = Ok (confirmation_of "SO00042") /\
  order_id_as_specified negative_hash sample_str sample_order = "SO99958" /\
  simulated_order_id negative_hash sample_str sample_order
  <> order_id_as_specified negative_hash sample_str sample_order.
Proof.
  cbv zeta. repeat split; try reflexivity; discriminate.
Qed.

(** For a non-negative hash the two derivations agree. *)
Lemma order_id_as_specified_nonneg (py_hash : string -> Z)
    (py_str : dict -> string) (order_data : dict) :
  0 <= py_hash (py_str order_data) ->
  simulated_order_id py_hash py_str order_data
  = order_id_as_specified py_hash py_str order_data.
Proof.
  intros H. unfold simulated_order_id, order_id_as_specified.
  now rewrite Z.abs_eq by exact H.
Qed.

Example create_sales_order_sample :
  fst (create_sales_order sample_hash sample_str sample_order
         (sample_world None (Some "k") (Some "k") (Ok (JObj sample_order))))
  = Ok [("status", JStr "success");
        ("order_id", JStr "SO67048");
        ("message",
         JStr "Sales order created successfully in SAP (simulated).")].
Proof. vm_compute. reflexivity. Qed.

Lemma connection_fault_precedes_all_checks_witness :
  let w := sample_world (Some "fail_connection") (Some "k") (Some "k")
             (Ok JNull) in
  SAP_HOST (settings w) = Some "fail_connection" /\
  fst (read_material_data "NOT_FOUND" w) = Raise connection_fault /\
  fst (create_sales_order sample_hash sample_str
         [("customer_id", JStr "FAIL_CUSTOMER")] w)
    = Raise connection_fault.
Proof.
  intros w.
  assert (Hhost : SAP_HOST (settings w) = Some "fail_connection")
    by reflexivity.
  split; [exact Hhost |].
  exact (connection_fault_precedes_all_checks sample_hash sample_str w
           "NOT_FOUND" [("customer_id", JStr "FAIL_CUSTOMER")] Hhost).
Defined.

Lemma create_sales_order_rejections_witness :
  let w := sample_world (Some "sap.example.com") (Some "k") (Some "k")
             (Ok JNull) in
  let no_items : dict :=
    [("customer_id", JStr "CUST456"); ("details", JObj [])] in
  let blocked : dict :=
    [("customer_id", JStr "FAIL_CUSTOMER");
     ("items", JArr [JObj [("material_id", JStr "MATFC");
                           ("quantity", JInt 1)]]);
     ("details", JObj [])] in
  SAP_HOST (settings w) <> Some "fail_connection" /\
  truthy (dict_get "items" no_items) = false /\
  fst (create_sales_order sample_hash sample_str no_items w)
    = Raise (SAPOperationError
               "Invalid order data: customer_id and items are required.") /\
  dict_get "customer_id" blocked = JStr "FAIL_CUSTOMER" /\
  truthy (dict_get "items" blocked) = true /\
  fst (create_sales_order sample_hash sample_str blocked w)
    = Raise (SAPOperationError
               "Customer 'FAIL_CUSTOMER' is not valid for sales order creation.").
Proof.
  intros w no_items blocked.
  assert (Hhost : SAP_HOST (settings w) <> Some "fail_connection")
    by discriminate.
  assert (Hi : truthy (dict_get "items" no_items) = false) by reflexivity.
  assert (Hc : dict_get "customer_id" blocked = JStr "FAIL_CUSTOMER")
    by reflexivity.
  assert (Hi' : truthy (dict_get "items" blocked) = true) by reflexivity.
  split; [exact Hhost |]. split; [exact Hi |].
  split.
  - exact (proj1 (create_sales_order_rejections sample_hash sample_str
                    w no_items Hhost) (or_intror Hi)).
  - split; [exact Hc |]. split; [exact Hi' |].
    exact (proj2 (create_sales_order_rejections sample_hash sample_str
                    w blocked Hhost) Hc Hi').
Defined.

(** C5, as stated, fails on the code.  With the connect step succeeding,
    an order whose [customer_id] is the blocked-customer sentinel and
    whose [items] is empty is rejected with the "required" message, which
    does not name the customer and is not the text "customer_id and items
    are required."; and with the host set to the fault sentinel an empty
    order raises the connection failure, not the operation failure. *)
Lemma create_sales_order_rejections_counterexample :
  let up := sample_world (Some "sap.example.com") (Some "k") (Some "k")
              (Ok JNull) in
  let down := sample_world (Some "fail_connection") (Some "k") (Some "k")
                (Ok JNull) in
  let blocked_no_items : dict :=
    [("customer_id", JStr "FAIL_CUSTOMER"); ("items", JArr [])] in
  dict_get "customer_id" blocked_no_items = JStr "FAIL_CUSTOMER" /\
  fst (create_sales_order sample_hash sample_str blocked_no_items up)
    = Raise (SAPOperationError
               "Invalid order data: customer_id and items are required.") /\
  str_contains "FAIL_CUSTOMER"
    "Invalid order data: customer_id and items are required." = false /\
  "Invalid order data: customer_id and items are required."
    <> "customer_id and items are required." /\
  truthy (dict_get "customer_id" []) = false /\
  fst (create_sales_order sample_hash sample_str [] down)
    = Raise connection_fault /\
  (forall msg, connection_fault <> SAPOperationError msg).
Proof.
  cbv zeta. repeat split; try reflexivity; discriminate.
Qed.

(** ** The auth gate *)

Lemma api_key_required_unfold {A} (f : A -> M response) (args : A) w :
  api_key_required f args w
  = if truthy (of_opt_str (x_api_key (request w)))
       && opt_str_eqb (x_api_key (request w)) (API_KEY (settings w))
    then f args w
    else (Ok unauthorized, w).
Proof.
  unfold api_key_required, bind, get_request, get_settings.
  destruct (truthy (of_opt_str (x_api_key (request w)))
            && opt_str_eqb (x_api_key (request w)) (API_KEY (settings w)));
    reflexivity.
Qed.

Lemma opt_str_eqb_eq (a b : option string) :
  opt_str_eqb a b = true <-> a = b.
Proof.
  destruct a as [x|], b as [y|]; simpl;
    try (split; [discriminate | congruence]); try tauto.
  rewrite String.eqb_eq. split; congruence.
Qed.

Lemma truthy_opt_str (h : option string) :
  truthy (of_opt_str h) = true <-> exists k, h = Some k /\ k <> "".
Proof.
  destruct h as [k|]; simpl.
  - rewrite negb_true_iff, String.eqb_neq. split.
    + intros H. now exists k.
    + intros (k' & E & H). congruence.
  - split; [discriminate | intros (k & E & _); discriminate].
Qed.

(** The gate lets a request through exactly when the header is present,
    non-empty and equal to the configured secret. *)
Lemma api_key_check_spec (header key : option string) :
  truthy (of_opt_str header) && opt_str_eqb header key = true
  <-> exists k, header = Some k /\ k <> "" /\ key = Some k.
Proof.
  rewrite andb_true_iff, truthy_opt_str, opt_str_eqb_eq. split.
  - intros [(k & E & Hk) Heq]. exists k. repeat split; congruence.
  - intros (k & E & Hk & Ekey). split; [now exists k | congruence].
Qed.

Lemma api_key_required_pass {A} (f : A -> M response) (args : A) w key :
  x_api_key (request w) = Some key ->
  key <> "" ->
  API_KEY (settings w) = Some key ->
  api_key_required f args w = f args w.
Proof.
  intros Eh Hk Ek. rewrite api_key_required_unfold.
  replace (truthy (of_opt_str (x_api_key (request w)))
           && opt_str_eqb (x_api_key (request w)) (API_KEY (settings w)))
    with true; [reflexivity |].
  symmetry. apply api_key_check_spec. now exists key.
Qed.

Lemma api_key_required_reject {A} (f : A -> M response) (args : A) w :
  (forall key,
      x_api_key (request w) = Some key -> key <> "" ->
      API_KEY (settings w) <> Some key) ->
  api_key_required f args w = (Ok unauthorized, w).
Proof.
  intros Hrej. rewrite api_key_required_unfold.
  destruct (truthy (of_opt_str (x_api_key (request w)))
            && opt_str_eqb (x_api_key (request w)) (API_KEY (settings w)))
    eqn:E; [| reflexivity].
  apply api_key_check_spec in E. destruct E as (k & Eh & Hk & Ek).
  exfalso. exact (Hrej k Eh Hk Ek).
Qed.

(** C8. The auth gate compares the [X-API-KEY] header with the configured
    secret for exact equality of the two strings (so also of their
    case).  When the header is absent, empty or different from the
    secret, the decorated function answers 401 with a [message] field and
    leaves the world as it was, whatever the wrapped handler is: the
    handler does not run.  When the header is a non-empty string equal to
    the secret, the decorated function is the wrapped handler. *)
Theorem api_key_gate :
  forall (A : Type) (f : A -> M response) (args : A) (w : world),
    (x_api_key (request w) = None \/
     x_api_key (request w) = Some "" \/
     x_api_key (request w) <> API_KEY (settings w) ->
     api_key_required f args w = (Ok unauthorized, w) /\
     status_code unauthorized = 401 /\
     exists msg, body unauthorized = JObj [("message", JStr msg)]) /\
    (forall key,
        x_api_key (request w) = Some key ->
        key <> "" ->
        API_KEY (settings w) = Some key ->
        api_key_required f args w = f args w).
Proof.
  intros A f args w. split.
  - intros Hrej. split; [| split; [reflexivity | eexists; reflexivity]].
    apply api_key_required_reject. intros k Eh Hk Ek.
    destruct Hrej as [H | [H | H]]; congruence.
  - intros key. apply api_key_required_pass.
Qed.

Lemma api_key_gate_witness :
  let handler : string -> M response :=
    get_material_with read_material_data in
  let wrong_case :=
    sample_world None (Some "Test_Key") (Some "test_key") (Ok JNull) in
  let right :=
    sample_world None (Some "Test_Key") (Some "Test_Key") (Ok JNull) in
  x_api_key (request wrong_case) <> API_KEY (settings wrong_case) /\
  api_key_required handler "TESTMAT" wrong_case
    = (Ok unauthorized, wrong_case) /\
  x_api_key (request right) = Some "Test_Key" /\
  "Test_Key" <> "" /\
  API_KEY (settings right) = Some "Test_Key" /\
  api_key_required handler "TESTMAT" right = handler "TESTMAT" right.
Proof.
  intros handler wrong_case right.
  assert (Hne : x_api_key (request wrong_case) <> API_KEY (settings wrong_case))
    by discriminate.
  assert (Hh : x_api_key (request right) = Some "Test_Key") by reflexivity.
  assert (Hk : "Test_Key" <> "") by discriminate.
  assert (Hs : API_KEY (settings right) = Some "Test_Key") by reflexivity.
  split; [exact Hne |].
  split.
  - exact (proj1 (proj1 (api_key_gate string handler "TESTMAT" wrong_case)
                    (or_intror (or_intror Hne)))).
  - repeat (split; [assumption |]).
    exact (proj2 (api_key_gate string handler "TESTMAT" right)
             "Test_Key" Hh Hk Hs).
Defined.

(** C9. If the configured secret is unset or the empty string, the gate
    answers 401 to every request, whatever header it carries, and runs no
    wrapped handler; in particular both protected routes answer 401 and
    never reach the backend. *)
Theorem unset_secret_rejects_everything :
  forall (A : Type) (f : A -> M response) (args : A) (w : world)
         (py_hash : string -> Z) (py_str : dict -> string)
         (material_id : string),
    API_KEY (settings w) = None \/ API_KEY (settings w) = Some "" ->
    api_key_required f args w = (Ok unauthorized, w) /\
    get_material material_id w = (Ok unauthorized, w) /\
    create_sales_order_api py_hash py_str tt w = (Ok unauthorized, w) /\
    status_code unauthorized = 401.
Proof.
  intros A f args w py_hash py_str material_id Hkey.
  assert (Hgate : forall B (g : B -> M response) (b : B),
             api_key_required g b w = (Ok unauthorized, w)).
  { intros B g b. apply api_key_required_reject. intros k Eh Hk Ek.
    destruct Hkey as [H | H]; congruence. }
  repeat split; apply Hgate.
Qed.

Lemma unset_secret_rejects_everything_witness :
  let w := sample_world (Some "sap.example.com") None (Some "anything")
             (Ok (JObj sample_order)) in
  (API_KEY (settings w) = None \/ API_KEY (settings w) = Some "") /\
  api_key_required (get_material_with read_material_data) "TESTMAT" w
    = (Ok unauthorized, w) /\
  get_material "TESTMAT" w = (Ok unauthorized, w) /\
  create_sales_order_api sample_hash sample_str tt w = (Ok unauthorized, w) /\
  status_code unauthorized = 401.
Proof.
  intros w.
  assert (Hkey : API_KEY (settings w) = None \/ API_KEY (settings w) = Some "")
    by (left; reflexivity).
  split; [exact Hkey |].
  exact (unset_secret_rejects_everything string
           (get_material_with read_material_data) "TESTMAT" w
           sample_hash sample_str "TESTMAT" Hkey).
Defined.

(** ** The route handlers *)

Lemma get_material_with_raise (read : string -> M dict) material_id w e w' :
  read material_id w = (Raise e, w') ->
  get_material_with read material_id w = get_material_except e w'.
Proof.
  intros H. unfold get_material_with.
  apply try_except_raise. now apply bind_raise.
Qed.

Lemma get_material_with_ok (read : string -> M dict) material_id w record w' :
  read material_id w = (Ok record, w') ->
  get_material_with read material_id w
  = (Ok {| body := jsonify record; status_code := 200 |}, w').
Proof.
  intros H. unfold get_material_with.
  apply try_except_ok. now erewrite bind_ok by exact H.
Qed.

Lemma sales_order_handler_unfold (create : dict -> M dict) w data :
  get_json (request w) = Ok data ->
  create_sales_order_api_with create tt w
  = if negb (truthy data) || negb (is_dict data)
    then (Ok (error_response "Invalid input: JSON data expected" 400), w)
    else
      match data with
      | JObj d =>
          if negb (dict_contains "details" d)
          then (Ok (error_response
                      "Invalid input: 'details' key missing in JSON payload"
                      400), w)
          else forward_to_backend create d w
      | _ => (Ok (error_response "Invalid input: JSON data expected" 400), w)
      end.
Proof.
  intros H.
  unfold create_sales_order_api_with, forward_to_backend, try_except, bind,
    get_request, lift_result.
  rewrite H.
  destruct (negb (truthy data) || negb (is_dict data)); [reflexivity |].
  destruct data; try reflexivity.
  destruct (negb (dict_contains "details" fields)); reflexivity.
Qed.

Lemma forward_to_backend_raise (create : dict -> M dict) d w e w' :
  create d w = (Raise e, w') ->
  forward_to_backend create d w = sales_order_except e w'.
Proof.
  intros H. unfold forward_to_backend.
  apply try_except_raise. now apply bind_raise.
Qed.

Lemma forward_to_backend_ok (create : dict -> M dict) d w c w' :
  create d w = (Ok c, w') ->
  forward_to_backend create d w
  = (Ok {| body := jsonify c; status_code := 201 |}, w').
Proof.
  intros H. unfold forward_to_backend.
  apply try_except_ok. now erewrite bind_ok by exact H.
Qed.

Lemma contains_details_truthy (d : dict) :
  dict_contains "details" d = true ->
  negb (truthy (JObj d)) || negb (is_dict (JObj d)) = false.
Proof. destruct d; [discriminate | reflexivity]. Qed.

Lemma sales_order_handler_forwards (create : dict -> M dict) w d :
  get_json (request w) = Ok (JObj d) ->
  dict_contains "details" d = true ->
  create_sales_order_api_with create tt w = forward_to_backend create d w.
Proof.
  intros Hj Hd.
  rewrite (sales_order_handler_unfold create w (JObj d) Hj).
  rewrite (contains_details_truthy d Hd), Hd. reflexivity.
Qed.

(** C2. The two handlers translate failures as follows, whatever
    backend function raises them.  The material handler, on every
    request, answers 404 to a not-found failure, 503 to a connection
    failure, 500 to an operation failure, and 500 with the generic
    message to any other exception.  The sales-order handler, once the
    request has passed its own validation and the backend is called,
    answers 503 to a connection failure, 400 to an operation failure, and
    500 with the generic message to any other exception (a not-found
    failure included); an exception raised while reading the body gets
    the same generic 500.  So the same failure kind, operation failure,
    is a 500 on one route and a 400 on the other. *)
Theorem handlers_map_failures :
  forall (read : string -> M dict) (create : dict -> M dict)
         (material_id : string) (w : world),
    (forall e w1,
        read material_id w = (Raise e, w1) ->
        exists r,
          get_material_with read material_id w = (Ok r, w1) /\
          match e with
          | SAPNotFoundError msg =>
              r = error_response msg 404 /\ status_code r = 404
          | SAPConnectionError msg =>
              r = error_response ("SAP connection error: " ++ msg) 503 /\
              status_code r = 503
          | SAPOperationError msg =>
              r = error_response ("SAP operation error: " ++ msg) 500 /\
              status_code r = 500
          | OtherException _ =>
              r = unexpected_error /\ status_code r = 500
          end) /\
    (forall d e w2,
        get_json (request w) = Ok (JObj d) ->
        dict_contains "details" d = true ->
        create d w = (Raise e, w2) ->
        exists r,
          create_sales_order_api_with create tt w = (Ok r, w2) /\
          match e with
          | SAPConnectionError msg =>
              r = error_response ("SAP connection error: " ++ msg) 503 /\
              status_code r = 503
          | SAPOperationError msg =>
              r = error_response ("SAP operation error: " ++ msg) 400 /\
              status_code r = 400
          | SAPNotFoundError _ | OtherException _ =>
              r = unexpected_error /\ status_code r = 500
          end) /\
    (forall msg,
        get_json (request w) = Raise (OtherException msg) ->
        create_sales_order_api_with create tt w = (Ok unexpected_error, w)) /\
    body unexpected_error
    = JObj [("error", JStr "An unexpected error occurred")].
Proof.
  intros read create material_id w.
  split; [| split; [| split; [| reflexivity]]].
  - intros e w1 Hr.
    rewrite (get_material_with_raise _ _ _ _ _ Hr).
    destruct e; eexists; repeat split.
  - intros d e w2 Hj Hd Hc.
    rewrite (sales_order_handler_forwards _ _ _ Hj Hd).
    rewrite (forward_to_backend_raise _ _ _ _ _ Hc).
    destruct e; eexists; repeat split.
  - intros msg Hj.
    unfold create_sales_order_api_with, try_except, bind, get_request,
      lift_result.
    rewrite Hj. reflexivity.
Qed.

Lemma handlers_map_failures_witness :
  let d : dict := [("details", JObj [("notes", JStr "missing core fields")])] in
  let w := sample_world (Some "sap.example.com") (Some "k") (Some "k")
             (Ok (JObj d)) in
  let no_body := sample_world (Some "sap.example.com") (Some "k") (Some "k")
                   (Ok JNull) in
  let w1 := add_call CallConnect
              (add_call (CallReadMaterial "ERROR_READ") no_body) in
  let w2 := add_call CallConnect (add_call (CallCreateSalesOrder d) w) in
  let e_read := SAPOperationError
    "Failed to read data for material 'ERROR_READ' (simulated)." in
  let e_create := SAPOperationError
    "Invalid order data: customer_id and items are required." in
  read_material_data "ERROR_READ" no_body = (Raise e_read, w1) /\
  (exists r,
      get_material_with read_material_data "ERROR_READ" no_body = (Ok r, w1) /\
      r = error_response
            "SAP operation error: Failed to read data for material 'ERROR_READ' (simulated)."
            500 /\
      status_code r = 500) /\
  get_json (request w) = Ok (JObj d) /\
  dict_contains "details" d = true /\
  create_sales_order sample_hash sample_str d w = (Raise e_create, w2) /\
  (exists r,
      create_sales_order_api_with (create_sales_order sample_hash sample_str)
        tt w = (Ok r, w2) /\
      r = error_response
            "SAP operation error: Invalid order data: customer_id and items are required."
            400 /\
      status_code r = 400).
Proof.
  intros d w no_body w1 w2 e_read e_create.
  assert (Hr : read_material_data "ERROR_READ" no_body = (Raise e_read, w1))
    by reflexivity.
  assert (Hj : get_json (request w) = Ok (JObj d)) by reflexivity.
  assert (Hd : dict_contains "details" d = true) by reflexivity.
  assert (Hc : create_sales_order sample_hash sample_str d w
               = (Raise e_create, w2)) by reflexivity.
  split; [exact Hr |].
  split.
  - exact (proj1 (handlers_map_failures read_material_data
                    (create_sales_order sample_hash sample_str)
                    "ERROR_READ" no_body) e_read w1 Hr).
  - repeat (split; [assumption |]).
    exact (proj1 (proj2 (handlers_map_failures read_material_data
                           (create_sales_order sample_hash sample_str)
                           "ERROR_READ" w)) d e_create w2 Hj Hd Hc).
Defined.

(** C7 (amended). The sales-order handler answers 400 with the message
    "Invalid input: JSON data expected" when the parsed body is absent
    ([None]), is not a mapping, or is falsy, which includes the empty
    mapping; it answers 400 with the message "Invalid input: 'details'
    key missing in JSON payload" when the body is a non-empty mapping
    without the key [details].  In both cases the world, and with it the
    call trace, is what it was, whatever the backend function is: the
    backend is not called, and these checks are the handler's own. *)
Theorem sales_order_handler_validation :
  forall (create : dict -> M dict) (w : world),
    (forall data,
        get_json (request w) = Ok data ->
        truthy data = false \/ is_dict data = false ->
        create_sales_order_api_with create tt w
        = (Ok (error_response "Invalid input: JSON data expected" 400), w)) /\
    (forall d,
        get_json (request w) = Ok (JObj d) ->
        d <> [] ->
        dict_contains "details" d = false ->
        create_sales_order_api_with create tt w
        = (Ok (error_response
                 "Invalid input: 'details' key missing in JSON payload" 400),
           w)).
Proof.
  intros create w. split.
  - intros data Hj Hbad.
    rewrite (sales_order_handler_unfold create w data Hj).
    destruct Hbad as [-> | ->]; [| rewrite orb_true_r]; reflexivity.
  - intros d Hj Hne Hd.
    rewrite (sales_order_handler_unfold create w (JObj d) Hj).
    destruct d as [|kv d]; [contradiction |].
    cbn [truthy is_dict negb orb]. rewrite Hd. reflexivity.
Qed.

Lemma sales_order_handler_validation_witness :
  let create := create_sales_order sample_hash sample_str in
  let absent := sample_world None (Some "k") (Some "k") (Ok JNull) in
  let d : dict :=
    [("customer_id", JStr "CUST002");
     ("items", JArr [JObj [("material_id", JStr "MAT002");
                           ("quantity", JInt 5)]])] in
  let no_details := sample_world None (Some "k") (Some "k") (Ok (JObj d)) in
  get_json (request absent) = Ok JNull /\
  truthy JNull = false /\
  create_sales_order_api_with create tt absent
    = (Ok (error_response "Invalid input: JSON data expected" 400), absent) /\
  get_json (request no_details) = Ok (JObj d) /\
  d <> [] /\
  dict_contains "details" d = false /\
  create_sales_order_api_with create tt no_details
    = (Ok (error_response
             "Invalid input: 'details' key missing in JSON payload" 400),
       no_details).
Proof.
  intros create absent d no_details.
  assert (H1 : get_json (request absent) = Ok JNull) by reflexivity.
  assert (H2 : truthy JNull = false) by reflexivity.
  assert (H3 : get_json (request no_details) = Ok (JObj d)) by reflexivity.
  assert (H4 : d <> []) by discriminate.
  assert (H5 : dict_contains "details" d = false) by reflexivity.
  split; [exact H1 |]. split; [exact H2 |].
  split.
  - exact (proj1 (sales_order_handler_validation create absent)
             JNull H1 (or_introl H2)).
  - repeat (split; [assumption |]).
    exact (proj2 (sales_order_handler_validation create no_details)
             d H3 H4 H5).
Defined.

(** C7, as stated, fails on the code.  The empty mapping is a mapping
    without the key [details], yet the handler answers it with "Invalid
    input: JSON data expected"; and for a non-empty mapping without the
    key the message is longer than the one quoted. *)
Lemma sales_order_handler_validation_counterexample :
  let create := create_sales_order sample_hash sample_str in
  let empty := sample_world None (Some "k") (Some "k") (Ok (JObj [])) in
  let d : dict := [("customer_id", JStr "CUST002")] in
  let no_details := sample_world None (Some "k") (Some "k") (Ok (JObj d)) in
  is_dict (JObj []) = true /\
  dict_contains "details" [] = false /\
  fst (create_sales_order_api_with create tt empty)
    = Ok (error_response "Invalid input: JSON data expected" 400) /\
  fst (create_sales_order_api_with create tt empty)
    <> Ok (error_response "Invalid input: 'details' key missing" 400) /\
  dict_contains "details" d = false /\
  fst (create_sales_order_api_with create tt no_details)
    = Ok (error_response
            "Invalid input: 'details' key missing in JSON payload" 400) /\
  fst (create_sales_order_api_with create tt no_details)
    <> Ok (error_response "Invalid input: 'details' key missing" 400).
Proof.
  cbv zeta. repeat split; try reflexivity; discriminate.
Qed.

(** C10. The sales-order handler tests only that the key [details] is
    present: for every mapping body that binds [details] to any value
    whatever, validation passes and the handler is exactly the call of
    the backend function on the whole body followed by the translation
    of its outcome; with the stub as backend, the call trace shows the
    stub entered with the whole body. *)
Theorem details_checked_for_presence_only :
  forall (create : dict -> M dict) (py_hash : string -> Z)
         (py_str : dict -> string) (w : world) (d : dict) (v : json),
    get_json (request w) = Ok (JObj d) ->
    dict_lookup "details" d = Some v ->
    create_sales_order_api_with create tt w
    = match create d w with
      | (Ok confirmation, w') =>
          (Ok {| body := jsonify confirmation; status_code := 201 |}, w')
      | (Raise e, w') => sales_order_except e w'
      end /\
    calls (snd (create_sales_order_api_with
                  (create_sales_order py_hash py_str) tt w))
    = CallConnect :: CallCreateSalesOrder d :: calls w.
Proof.
  intros create py_hash py_str w d v Hj Hv.
  assert (Hd : dict_contains "details" d = true).
  { unfold dict_contains. now rewrite Hv. }
  split.
  - rewrite (sales_order_handler_forwards create w d Hj Hd).
    destruct (create d w) as [[c | e] w'] eqn:E.
    + now apply forward_to_backend_ok.
    + now apply forward_to_backend_raise.
  - rewrite (sales_order_handler_forwards _ w d Hj Hd).
    pose proof (create_sales_order_world py_hash py_str d w) as Hw.
    destruct (create_sales_order py_hash py_str d w) as [[c | e] w'] eqn:E;
      cbn [snd] in Hw; subst w'.
    + erewrite forward_to_backend_ok by exact E. reflexivity.
    + erewrite forward_to_backend_raise by exact E.
      destruct e; reflexivity.
Qed.

Lemma details_checked_for_presence_only_witness :
  let create := create_sales_order sample_hash sample_str in
  let d : dict :=
    [("customer_id", JStr "CUST001");
     ("items", JArr [JObj [("material_id", JStr "MAT001");
                           ("quantity", JInt 10)]]);
     ("details", JNull)] in
  let w := sample_world (Some "sap.example.com") (Some "k") (Some "k")
             (Ok (JObj d)) in
  get_json (request w) = Ok (JObj d) /\
  dict_lookup "details" d = Some JNull /\
  create_sales_order_api_with create tt w
  = match create d w with
    | (Ok confirmation, w') =>
        (Ok {| body := jsonify confirmation; status_code := 201 |}, w')
    | (Raise e, w') => sales_order_except e w'
    end /\
  calls (snd (create_sales_order_api_with create tt w))
  = CallConnect :: CallCreateSalesOrder d :: calls w.
Proof.
  intros create d w.
  assert (Hj : get_json (request w) = Ok (JObj d)) by reflexivity.
  assert (Hv : dict_lookup "details" d = Some JNull) by reflexivity.
  split; [exact Hj |]. split; [exact Hv |].
  exact (details_checked_for_presence_only create sample_hash sample_str
           w d JNull Hj Hv).
Defined.

(** ** End to end *)

Example get_TESTMAT_with_key :
  fst (get_material "TESTMAT"
         (sample_world None (Some "test_api_key_for_testing")
            (Some "test_api_key_for_testing") (Ok JNull)))
  = Ok {| body := JObj [("material_id", JStr "TESTMAT");
                        ("description", JStr "Sample Material TESTMAT");
                        ("quantity", JInt 100);
                        ("unit", JStr "EA");
                        ("plant", JStr "1000")];
          status_code := 200 |}.
Proof. reflexivity. Qed.

Example get_TESTMAT_wrong_key :
  get_material "TESTMAT"
    (sample_world None (Some "test_api_key_for_testing") (Some "wrong_key")
       (Ok JNull))
  = (Ok unauthorized,
     sample_world None (Some "test_api_key_for_testing") (Some "wrong_key")
       (Ok JNull)).
Proof. reflexivity. Qed.

Example get_INVALID_with_key :
  fst (get_material "INVALID"
         (sample_world None (Some "k") (Some "k") (Ok JNull)))
  = Ok (error_response "Material with ID 'INVALID' not found." 404).
Proof. reflexivity. Qed.

Example post_sample_order_with_key :
  fst (create_sales_order_api sample_hash sample_str tt
         (sample_world None (Some "k") (Some "k") (Ok (JObj sample_order))))
  = Ok {| body := JObj [("status", JStr "success");
                        ("order_id", JStr "SO67048");
                        ("message",
                         JStr "Sales order created successfully in SAP (simulated).")];
          status_code := 201 |}.
Proof. vm_compute. reflexivity. Qed.

Example post_unparsable_body :
  fst (create_sales_order_api sample_hash sample_str tt
         (sample_world None (Some "k") (Some "k")
            (Raise (OtherException "400 Bad Request"))))
  = Ok unexpected_error.
Proof. reflexivity. Qed.

Example post_with_host_down :
  fst (create_sales_order_api sample_hash sample_str tt
         (sample_world (Some "fail_connection") (Some "k") (Some "k")
            (Ok (JObj sample_order))))
  = Ok (error_response
          "SAP connection error: Failed to connect to SAP: Host unreachable (simulated)"
          503).
Proof. reflexivity. Qed.

(* ------------------------------------------------------------------ *)
(** * Further properties of the backend stub *)

Lemma read_material_data_down material_id w :
  SAP_HOST (settings w) = Some "fail_connection" ->
  read_material_data material_id w
  = (Raise connection_fault,
     add_call CallConnect (add_call (CallReadMaterial material_id) w)).
Proof.
  intros H. rewrite read_material_data_unfold.
  now erewrite bind_raise by (apply connect_step_fail; exact H).
Qed.

Lemma read_material_data_up material_id w :
  SAP_HOST (settings w) <> Some "fail_connection" ->
  read_material_data material_id w
  = ((if (material_id =? "INVALID")%string
         || (material_id =? "NOT_FOUND")%string
      then Raise (SAPNotFoundError
                    ("Material with ID '" ++ material_id ++ "' not found."))
      else if (material_id =? "ERROR_READ")%string
      then Raise (SAPOperationError
                    ("Failed to read data for material '" ++ material_id
                       ++ "' (simulated)."))
      else Ok (material_record material_id)),
     add_call CallConnect (add_call (CallReadMaterial material_id) w)).
Proof.
  intros H. rewrite read_material_data_unfold.
  erewrite bind_ok by (apply connect_step_ok; exact H).
  destruct ((material_id =? "INVALID")%string
            || (material_id =? "NOT_FOUND")%string); [reflexivity |].
  destruct (material_id =? "ERROR_READ")%string; reflexivity.
Qed.

(** X1. Reading the cause off the outcome of [read_material_data]: a
    record is returned only with the host up and an identifier outside
    the reserved ones, and it is the record built from the identifier; a
    connection failure only with the host set to the sentinel, and only
    with the "Host unreachable" message (the "Connection not established"
    branch is dead); a not-found failure only for "INVALID" and
    "NOT_FOUND"; an operation failure only for "ERROR_READ"; no other
    exception ever. *)
Theorem read_material_data_inversion :
  forall (w : world) (material_id : string),
    match fst (read_material_data material_id w) with
    | Ok record =>
        SAP_HOST (settings w) <> Some "fail_connection" /\
        ~ In material_id reserved_material_ids /\
        record = material_record material_id
    | Raise (SAPConnectionError msg) =>
        SAP_HOST (settings w) = Some "fail_connection" /\
        msg = "Failed to connect to SAP: Host unreachable (simulated)"
    | Raise (SAPNotFoundError msg) =>
        SAP_HOST (settings w) <> Some "fail_connection" /\
        (material_id = "INVALID" \/ material_id = "NOT_FOUND") /\
        msg = "Material with ID '" ++ material_id ++ "' not found."
    | Raise (SAPOperationError msg) =>
        SAP_HOST (settings w) <> Some "fail_connection" /\
        material_id = "ERROR_READ" /\
        msg = "Failed to read data for material 'ERROR_READ' (simulated)."
    | Raise (OtherException _) => False
    end.
Proof.
  intros w material_id.
  destruct (option_eq_dec_host (SAP_HOST (settings w))) as [H | H].
  - rewrite (read_material_data_down _ _ H). cbn. auto.
  - rewrite (read_material_data_up _ _ H). cbn [fst].
    destruct (material_id =? "INVALID")%string eqn:E1.
    { apply String.eqb_eq in E1. cbn [orb]. auto. }
    destruct (material_id =? "NOT_FOUND")%string eqn:E2.
    { apply String.eqb_eq in E2. cbn [orb]. auto. }
    cbn [orb].
    destruct (material_id =? "ERROR_READ")%string eqn:E3.
    { apply String.eqb_eq in E3. subst. auto. }
    apply String.eqb_neq in E1, E2, E3.
    repeat split; [exact H |].
    unfold reserved_material_ids. cbn [In]. intuition congruence.
Qed.

Section SalesOrderMore.

Variable py_hash : string -> Z.
Variable py_str : dict -> string.

Lemma create_sales_order_down order_data w :
  SAP_HOST (settings w) = Some "fail_connection" ->
  create_sales_order py_hash py_str order_data w
  = (Raise connection_fault,
     add_call CallConnect (add_call (CallCreateSalesOrder order_data) w)).
Proof.
  intros H. rewrite create_sales_order_unfold.
  now erewrite bind_raise by (apply connect_step_fail; exact H).
Qed.

Lemma create_sales_order_up order_data w :
  SAP_HOST (settings w) <> Some "fail_connection" ->
  create_sales_order py_hash py_str order_data w
  = ((if negb (truthy (dict_get "customer_id" order_data))
         || negb (truthy (dict_get "items" order_data))
      then Raise (SAPOperationError
                    "Invalid order data: customer_id and items are required.")
      else if eq_str (dict_get "customer_id" order_data) "FAIL_CUSTOMER"
      then Raise (SAPOperationError
             ("Customer '" ++ fmt_str (dict_get "customer_id" order_data)
                ++ "' is not valid for sales order creation."))
      else Ok (confirmation_of
                 (simulated_order_id py_hash py_str order_data))),
     add_call CallConnect (add_call (CallCreateSalesOrder order_data) w)).
Proof.
  intros H. rewrite create_sales_order_unfold.
  erewrite bind_ok by (apply connect_step_ok; exact H).
  destruct (negb (truthy (dict_get "customer_id" order_data))
            || negb (truthy (dict_get "items" order_data))); [reflexivity |].
  destruct (eq_str (dict_get "customer_id" order_data) "FAIL_CUSTOMER");
    reflexivity.
Qed.

Lemma eq_str_true (v : json) (s : string) :
  eq_str v s = true <-> v = JStr s.
Proof.
  destruct v; simpl; try (split; [discriminate | congruence]).
  rewrite String.eqb_eq. split; congruence.
Qed.

(** X2. Reading the cause off the outcome of [create_sales_order]: a
    confirmation is returned only with the host up, a truthy
    [customer_id] other than "FAIL_CUSTOMER" and truthy [items], and it
    is the success confirmation carrying the simulated identifier; a
    connection failure only with the host set to the sentinel and only
    with the "Host unreachable" message; an operation failure only with
    the host up and one of the two rejection messages, each with its own
    cause; a not-found failure or any other exception never. *)
Theorem create_sales_order_inversion :
  forall (w : world) (order_data : dict),
    match fst (create_sales_order py_hash py_str order_data w) with
    | Ok confirmation =>
        SAP_HOST (settings w) <> Some "fail_connection" /\
        truthy (dict_get "customer_id" order_data) = true /\
        truthy (dict_get "items" order_data) = true /\
        dict_get "customer_id" order_data <> JStr "FAIL_CUSTOMER" /\
        confirmation
        = confirmation_of (simulated_order_id py_hash py_str order_data)
    | Raise (SAPConnectionError msg) =>
        SAP_HOST (settings w) = Some "fail_connection" /\
        msg = "Failed to connect to SAP: Host unreachable (simulated)"
    | Raise (SAPOperationError msg) =>
        SAP_HOST (settings w) <> Some "fail_connection" /\
        ((msg = "Invalid order data: customer_id and items are required." /\
          (truthy (dict_get "customer_id" order_data) = false \/
           truthy (dict_get "items" order_data) = false)) \/
         (msg = "Customer 'FAIL_CUSTOMER' is not valid for sales order creation." /\
          dict_get "customer_id" order_data = JStr "FAIL_CUSTOMER" /\
          truthy (dict_get "items" order_data) = true))
    | Raise (SAPNotFoundError _) | Raise (OtherException _) => False
    end.
Proof.
  intros w order_data.
  destruct (option_eq_dec_host (SAP_HOST (settings w))) as [H | H].
  - rewrite (create_sales_order_down _ _ H). cbn. auto.
  - rewrite (create_sales_order_up _ _ H). cbn [fst].
    destruct (truthy (dict_get "customer_id" order_data)) eqn:Ec;
      cbn [negb orb]; [| auto].
    destruct (truthy (dict_get "items" order_data)) eqn:Ei;
      cbn [negb orb]; [| auto].
    destruct (eq_str (dict_get "customer_id" order_data) "FAIL_CUSTOMER")
      eqn:Eb.
    + apply eq_str_true in Eb. rewrite Eb. cbn [fmt_str].
      split; [exact H |]. right. auto.
    + repeat split; try assumption.
      intros Hb. apply eq_str_true in Hb. congruence.
Qed.

(** X3. Whatever the outcome, each backend operation leaves the settings
    and the request untouched and extends the call trace by exactly its
    own entry followed by one connect attempt: there is one connection
    attempt per operation, also when the operation fails, and none is
    repeated. *)
Theorem backend_operations_frame :
  forall (w : world) (material_id : string) (order_data : dict),
    let w1 := snd (read_material_data material_id w) in
    let w2 := snd (create_sales_order py_hash py_str order_data w) in
    (settings w1 = settings w /\
     request w1 = request w /\
     calls w1 = CallConnect :: CallReadMaterial material_id :: calls w) /\
    (settings w2 = settings w /\
     request w2 = request w /\
     calls w2 = CallConnect :: CallCreateSalesOrder order_data :: calls w).
Proof.
  intros w material_id order_data. cbv zeta. split.
  - destruct (option_eq_dec_host (SAP_HOST (settings w))) as [H | H].
    + rewrite (read_material_data_down _ _ H). repeat split.
    + rewrite (read_material_data_up _ _ H). repeat split.
  - destruct (option_eq_dec_host (SAP_HOST (settings w))) as [H | H].
    + rewrite (create_sales_order_down _ _ H). repeat split.
    + rewrite (create_sales_order_up _ _ H). repeat split.
Qed.

(** X4. Only [customer_id] and [items] decide whether an order is
    accepted: two payloads that agree on these two keys, whatever else
    they contain, are both accepted or both rejected, and when rejected
    they are rejected with the same exception. *)
Theorem other_keys_do_not_decide_acceptance :
  forall (w : world) (d1 d2 : dict),
    dict_get "customer_id" d1 = dict_get "customer_id" d2 ->
    dict_get "items" d1 = dict_get "items" d2 ->
    match fst (create_sales_order py_hash py_str d1 w),
          fst (create_sales_order py_hash py_str d2 w) with
    | Ok c1, Ok c2 =>
        dict_get "status" c1 = dict_get "status" c2 /\
        dict_get "message" c1 = dict_get "message" c2
    | Raise e1, Raise e2 => e1 = e2
    | _, _ => False
    end.
Proof.
  intros w d1 d2 Hc Hi.
  destruct (option_eq_dec_host (SAP_HOST (settings w))) as [H | H].
  - rewrite !(create_sales_order_down _ _ H). reflexivity.
  - rewrite !(create_sales_order_up _ _ H). cbn [fst].
    rewrite Hc, Hi.
    destruct (negb (truthy (dict_get "customer_id" d2))
              || negb (truthy (dict_get "items" d2))); [reflexivity |].
    destruct (eq_str (dict_get "customer_id" d2) "FAIL_CUSTOMER");
      [reflexivity | split; reflexivity].
Qed.

(** X5. The five digits of a simulated order identifier read back as the
    absolute value of the payload's hash modulo 100000, a number from 0
    to 99999 whatever the sign or size of the hash; hence two payloads
    get the same identifier exactly when these residues coincide. *)
Theorem simulated_order_id_round_trip :
  forall (d1 d2 : dict),
    (exists digits,
        simulated_order_id py_hash py_str d1 = "SO" ++ digits /\
        String.length digits = 5%nat /\
        dec_value_from 0 digits = Z.abs (py_hash (py_str d1)) mod 100000 /\
        0 <= dec_value_from 0 digits < 100000) /\
    (simulated_order_id py_hash py_str d1 = simulated_order_id py_hash py_str d2
     <-> Z.abs (py_hash (py_str d1)) mod 100000
         = Z.abs (py_hash (py_str d2)) mod 100000).
Proof.
  intros d1 d2.
  assert (Hr : forall d, 0 <= Z.abs (py_hash (py_str d)) mod 100000 < 100000)
    by (intros d; apply Z.mod_pos_bound; lia).
  split.
  - exists (format_05d (Z.abs (py_hash (py_str d1)) mod 100000)).
    split; [reflexivity |].
    split; [apply format_05d_five_digits, Hr |].
    rewrite format_05d_value by apply Hr. split; [reflexivity | apply Hr].
  - unfold simulated_order_id. split.
    + intros E. injection E as E.
      apply (f_equal (dec_value_from 0)) in E.
      now rewrite !format_05d_value in E by apply Hr.
    + intros E. now rewrite E.
Qed.

(** X6. The stub consults the world only to ask whether the configured
    host is the fault sentinel: in two worlds that agree on that
    question, whatever their other settings, requests and traces, each
    operation has the same outcome. *)
Theorem backend_depends_on_host_sentinel_only :
  forall (w1 w2 : world) (material_id : string) (order_data : dict),
    (SAP_HOST (settings w1) = Some "fail_connection"
     <-> SAP_HOST (settings w2) = Some "fail_connection") ->
    fst (read_material_data material_id w1)
    = fst (read_material_data material_id w2) /\
    fst (create_sales_order py_hash py_str order_data w1)
    = fst (create_sales_order py_hash py_str order_data w2).
Proof.
  intros w1 w2 material_id order_data Hiff.
  destruct (option_eq_dec_host (SAP_HOST (settings w1))) as [H1 | H1].
  - assert (H2 := proj1 Hiff H1).
    rewrite (read_material_data_down _ _ H1), (read_material_data_down _ _ H2).
    rewrite (create_sales_order_down _ _ H1), (create_sales_order_down _ _ H2).
    split; reflexivity.
  - assert (H2 : SAP_HOST (settings w2) <> Some "fail_connection")
      by (intros H; apply H1, Hiff, H).
    rewrite (read_material_data_up _ _ H1), (read_material_data_up _ _ H2).
    rewrite (create_sales_order_up _ _ H1), (create_sales_order_up _ _ H2).
    split; reflexivity.
Qed.

End SalesOrderMore.

Lemma other_keys_do_not_decide_acceptance_witness :
  let w := sample_world (Some "sap.example.com") (Some "k") (Some "k")
             (Ok JNull) in
  let d1 : dict :=
    [("customer_id", JStr "FAIL_CUSTOMER");
     ("items", JArr [JInt 1]);
     ("details", JStr "rush")] in
  let d2 : dict :=
    [("note", JBool true);
     ("items", JArr [JInt 1]);
     ("customer_id", JStr "FAIL_CUSTOMER")] in
  dict_get "customer_id" d1 = dict_get "customer_id" d2 /\
  dict_get "items" d1 = dict_get "items" d2 /\
  match fst (create_sales_order sample_hash sample_str d1 w),
        fst (create_sales_order sample_hash sample_str d2 w) with
  | Ok c1, Ok c2 =>
      dict_get "status" c1 = dict_get "status" c2 /\
      dict_get "message" c1 = dict_get "message" c2
  | Raise e1, Raise e2 => e1 = e2
  | _, _ => False
  end.
Proof.
  intros w d1 d2.
  assert (Hc : dict_get "customer_id" d1 = dict_get "customer_id" d2)
    by reflexivity.
  assert (Hi : dict_get "items" d1 = dict_get "items" d2) by reflexivity.
  split; [exact Hc |]. split; [exact Hi |].
  exact (other_keys_do_not_decide_acceptance sample_hash sample_str
           w d1 d2 Hc Hi).
Defined.

Lemma backend_depends_on_host_sentinel_only_witness :
  let w1 := sample_world (Some "sap.example.com") (Some "k") (Some "k")
              (Ok JNull) in
  let w2 := {| settings := {| SAP_HOST := None;
                              SAP_CLIENT := None;
                              SAP_USER := Some "other";
                              SAP_PASSWORD := Some "secret";
                              SAP_SYSTEM_NUMBER := None;
                              API_KEY := None |};
               request := {| x_api_key := None;
                             get_json := Raise (OtherException "no body") |};
               calls := [CallConnect] |} in
  (SAP_HOST (settings w1) = Some "fail_connection"
   <-> SAP_HOST (settings w2) = Some "fail_connection") /\
  fst (read_material_data "MAT001" w1) = fst (read_material_data "MAT001" w2) /\
  fst (create_sales_order sample_hash sample_str sample_order w1)
  = fst (create_sales_order sample_hash sample_str sample_order w2).
Proof.
  intros w1 w2.
  assert (Hiff : SAP_HOST (settings w1) = Some "fail_connection"
                 <-> SAP_HOST (settings w2) = Some "fail_connection")
    by (split; discriminate).
  split; [exact Hiff |].
  exact (backend_depends_on_host_sentinel_only sample_hash sample_str
           w1 w2 "MAT001" sample_order Hiff).
Defined.

(* ------------------------------------------------------------------ *)
(** * Further properties of the handlers *)

Lemma get_material_except_ok (e : exn) w :
  exists r,
    get_material_except e w = (Ok r, w) /\
    In (status_code r) [404; 500; 503].
Proof.
  destruct e; eexists; (split; [reflexivity |]); cbn; auto.
Qed.

Lemma sales_order_except_ok (e : exn) w :
  exists r,
    sales_order_except e w = (Ok r, w) /\
    In (status_code r) [400; 500; 503].
Proof.
  destruct e; eexists; (split; [reflexivity |]); cbn; auto.
Qed.

(** X7. No exception leaves a handler body, whatever the backend
    function does and whatever [get_json] yields: the material handler
    always returns a response whose status is 200, 404, 500 or 503, and
    it is 200 exactly when the backend returned a record; the
    sales-order handler always returns a response whose status is 201,
    400, 500 or 503.  Neither handler changes the world beyond what the
    backend call did. *)
Theorem handlers_contain_exceptions :
  forall (read : string -> M dict) (create : dict -> M dict)
         (material_id : string) (w : world),
    (exists r,
        get_material_with read material_id w
        = (Ok r, snd (read material_id w)) /\
        In (status_code r) [200; 404; 500; 503] /\
        (status_code r = 200
         <-> exists record, fst (read material_id w) = Ok record)) /\
    (exists r w',
        create_sales_order_api_with create tt w = (Ok r, w') /\
        In (status_code r) [201; 400; 500; 503] /\
        (w' = w \/ exists d, get_json (request w) = Ok (JObj d) /\
                             w' = snd (create d w))).
Proof.
  intros read create material_id w. split.
  - destruct (read material_id w) as [[record | e] w'] eqn:E.
    + rewrite (get_material_with_ok _ _ _ _ _ E). eexists.
      split; [reflexivity |]. split; [cbn; auto |].
      split; [intros _; now exists record | reflexivity].
    + rewrite (get_material_with_raise _ _ _ _ _ E).
      destruct (get_material_except_ok e w') as (r & Hr & Hs).
      exists r. split; [exact Hr |]. split; [cbn in *; intuition |].
      split.
      * intros H200. rewrite H200 in Hs. cbn in Hs.
        intuition discriminate.
      * intros (record & Hrec). discriminate Hrec.
  - destruct (get_json (request w)) as [data | e] eqn:Ej.
    + rewrite (sales_order_handler_unfold create w data Ej).
      destruct (negb (truthy data) || negb (is_dict data)).
      { eexists _, _. split; [reflexivity |]. cbn. auto. }
      destruct data;
        try (eexists _, _; split; [reflexivity |]; cbn; auto; fail).
      destruct (negb (dict_contains "details" fields)).
      { eexists _, _. split; [reflexivity |]. cbn. auto. }
      destruct (create fields w) as [[c | e] w'] eqn:E.
      * rewrite (forward_to_backend_ok _ _ _ _ _ E).
        eexists _, _. split; [reflexivity |]. split; [cbn; auto |].
        right. exists fields. split; [reflexivity | now rewrite E].
      * rewrite (forward_to_backend_raise _ _ _ _ _ E).
        destruct (sales_order_except_ok e w') as (r & Hr & Hs).
        exists r, w'. split; [exact Hr |]. split; [cbn in *; intuition |].
        right. exists fields. split; [reflexivity | now rewrite E].
    + unfold create_sales_order_api_with, try_except, bind, get_request,
        lift_result. rewrite Ej.
      destruct (sales_order_except_ok e w) as (r & Hr & Hs).
      exists r, w. split; [exact Hr |]. split; [cbn in *; intuition |].
      now left.
Qed.

Lemma backend_operations_frame_read material_id w :
  settings (snd (read_material_data material_id w)) = settings w /\
  request (snd (read_material_data material_id w)) = request w /\
  calls (snd (read_material_data material_id w))
  = CallConnect :: CallReadMaterial material_id :: calls w.
Proof.
  destruct (option_eq_dec_host (SAP_HOST (settings w))) as [H | H].
  - rewrite (read_material_data_down _ _ H). repeat split.
  - rewrite (read_material_data_up _ _ H). repeat split.
Qed.

Lemma handlers_contain_exceptions_aux_read material_id w :
  exists r,
    get_material_with read_material_data material_id w
    = (Ok r, snd (read_material_data material_id w)).
Proof.
  destruct (read_material_data material_id w) as [[record | e] w'] eqn:E.
  - rewrite (get_material_with_ok _ _ _ _ _ E). eexists. reflexivity.
  - rewrite (get_material_with_raise _ _ _ _ _ E).
    destruct (get_material_except_ok e w') as (r & Hr & _).
    exists r. exact Hr.
Qed.

Lemma key_accepted_pass {A} (f : A -> M response) (args : A) w :
  key_accepted w -> api_key_required f args w = f args w.
Proof.
  intros (key & Eh & Hk & Ek). now apply api_key_required_pass with key.
Qed.

Lemma key_rejected {A} (f : A -> M response) (args : A) w :
  ~ key_accepted w -> api_key_required f args w = (Ok unauthorized, w).
Proof.
  intros Hno. apply api_key_required_reject.
  intros key Eh Hk Ek. apply Hno. now exists key.
Qed.

Lemma key_accepted_dec w : key_accepted w \/ ~ key_accepted w.
Proof.
  destruct (truthy (of_opt_str (x_api_key (request w)))
            && opt_str_eqb (x_api_key (request w)) (API_KEY (settings w)))
    eqn:E.
  - left. now apply api_key_check_spec.
  - right. intros H. apply api_key_check_spec in H. congruence.
Qed.

(** X8. The material route, end to end.  Without an accepted key the
    answer is the 401 response and the world is untouched.  With an
    accepted key: 503 when the host is the fault sentinel, whatever the
    identifier; otherwise 404 with the stub's message for "INVALID" and
    "NOT_FOUND", 500 for "ERROR_READ", and for every other identifier 200
    with the synthesized record as body. *)
Theorem get_material_route_table :
  forall (w : world) (material_id : string),
    (~ key_accepted w ->
     get_material material_id w = (Ok unauthorized, w)) /\
    (key_accepted w ->
     SAP_HOST (settings w) = Some "fail_connection" ->
     fst (get_material material_id w)
     = Ok (error_response
             "SAP connection error: Failed to connect to SAP: Host unreachable (simulated)"
             503)) /\
    (key_accepted w ->
     SAP_HOST (settings w) <> Some "fail_connection" ->
     material_id = "INVALID" \/ material_id = "NOT_FOUND" ->
     fst (get_material material_id w)
     = Ok (error_response
             ("Material with ID '" ++ material_id ++ "' not found.") 404)) /\
    (key_accepted w ->
     SAP_HOST (settings w) <> Some "fail_connection" ->
     material_id = "ERROR_READ" ->
     fst (get_material material_id w)
     = Ok (error_response
             "SAP operation error: Failed to read data for material 'ERROR_READ' (simulated)."
             500)) /\
    (key_accepted w ->
     SAP_HOST (settings w) <> Some "fail_connection" ->
     ~ In material_id reserved_material_ids ->
     fst (get_material material_id w)
     = Ok {| body := JObj (material_record material_id);
             status_code := 200 |}).
Proof.
  intros w material_id. unfold get_material.
  split; [apply key_rejected |].
  split; [| split; [| split]].
  - intros Hk Hh. rewrite (key_accepted_pass _ _ _ Hk).
    erewrite get_material_with_raise
      by (apply read_material_data_down; exact Hh).
    reflexivity.
  - intros Hk Hh Hid. rewrite (key_accepted_pass _ _ _ Hk).
    erewrite get_material_with_raise.
    2: { rewrite (read_material_data_up _ _ Hh).
         destruct Hid as [-> | ->]; reflexivity. }
    reflexivity.
  - intros Hk Hh ->. rewrite (key_accepted_pass _ _ _ Hk).
    erewrite get_material_with_raise.
    2: { rewrite (read_material_data_up _ _ Hh). reflexivity. }
    reflexivity.
  - intros Hk Hh Hid. rewrite (key_accepted_pass _ _ _ Hk).
    destruct (not_reserved _ Hid) as (E1 & E2 & E3).
    erewrite get_material_with_ok.
    2: { rewrite (read_material_data_up _ _ Hh), E1, E2, E3. reflexivity. }
    reflexivity.
Qed.

Lemma get_material_route_table_witness :
  let up := sample_world (Some "sap.example.com") (Some "k") (Some "k")
              (Ok JNull) in
  let down := sample_world (Some "fail_connection") (Some "k") (Some "k")
                (Ok JNull) in
  let nokey := sample_world (Some "sap.example.com") (Some "k") None
                 (Ok JNull) in
  ~ key_accepted nokey /\
  get_material "TESTMAT" nokey = (Ok unauthorized, nokey) /\
  key_accepted down /\
  SAP_HOST (settings down) = Some "fail_connection" /\
  fst (get_material "INVALID" down)
  = Ok (error_response
          "SAP connection error: Failed to connect to SAP: Host unreachable (simulated)"
          503) /\
  key_accepted up /\
  SAP_HOST (settings up) <> Some "fail_connection" /\
  ~ In "TESTMAT" reserved_material_ids /\
  fst (get_material "TESTMAT" up)
  = Ok {| body := JObj (material_record "TESTMAT"); status_code := 200 |}.
Proof.
  intros up down nokey.
  assert (Hno : ~ key_accepted nokey).
  { intros (key & Eh & _). discriminate Eh. }
  assert (Hkd : key_accepted down).
  { exists "k". repeat split. discriminate. }
  assert (Hku : key_accepted up).
  { exists "k". repeat split. discriminate. }
  assert (Hd : SAP_HOST (settings down) = Some "fail_connection")
    by reflexivity.
  assert (Hu : SAP_HOST (settings up) <> Some "fail_connection")
    by discriminate.
  assert (Hid : ~ In "TESTMAT" reserved_material_ids).
  { cbn. intros [H | [H | [H | []]]]; discriminate H. }
  split; [exact Hno |].
  split; [exact (proj1 (get_material_route_table nokey "TESTMAT") Hno) |].
  split; [exact Hkd |]. split; [exact Hd |].
  split;
    [exact (proj1 (proj2 (get_material_route_table down "INVALID")) Hkd Hd) |].
  split; [exact Hku |]. split; [exact Hu |]. split; [exact Hid |].
  exact (proj2 (proj2 (proj2 (proj2
           (get_material_route_table up "TESTMAT")))) Hku Hu Hid).
Defined.

Section SalesOrderRoute.

Variable py_hash : string -> Z.
Variable py_str : dict -> string.

(** X9. The sales-order route, end to end.  Without an accepted key the
    answer is the 401 response and the world is untouched, whatever the
    body.  With an accepted key: if [get_json] raises, the generic 500
    is returned, the same for every exception message, and the world is
    untouched; for a mapping body that has the key [details], 503 when
    the host is the fault sentinel, otherwise 400 with the stub's message
    when [customer_id] or [items] is falsy or the customer is blocked,
    and otherwise 201 with the confirmation as body. *)
Theorem sales_order_route_table :
  forall (w : world),
    (~ key_accepted w ->
     create_sales_order_api py_hash py_str tt w = (Ok unauthorized, w)) /\
    (key_accepted w ->
     forall msg,
       get_json (request w) = Raise (OtherException msg) ->
       create_sales_order_api py_hash py_str tt w = (Ok unexpected_error, w)) /\
    (key_accepted w ->
     forall d,
       get_json (request w) = Ok (JObj d) ->
       dict_contains "details" d = true ->
       (SAP_HOST (settings w) = Some "fail_connection" ->
        fst (create_sales_order_api py_hash py_str tt w)
        = Ok (error_response
                "SAP connection error: Failed to connect to SAP: Host unreachable (simulated)"
                503)) /\
       (SAP_HOST (settings w) <> Some "fail_connection" ->
        truthy (dict_get "customer_id" d) = false \/
        truthy (dict_get "items" d) = false ->
        fst (create_sales_order_api py_hash py_str tt w)
        = Ok (error_response
                "SAP operation error: Invalid order data: customer_id and items are required."
                400)) /\
       (SAP_HOST (settings w) <> Some "fail_connection" ->
        dict_get "customer_id" d = JStr "FAIL_CUSTOMER" ->
        truthy (dict_get "items" d) = true ->
        fst (create_sales_order_api py_hash py_str tt w)
        = Ok (error_response
                "SAP operation error: Customer 'FAIL_CUSTOMER' is not valid for sales order creation."
                400)) /\
       (SAP_HOST (settings w) <> Some "fail_connection" ->
        truthy (dict_get "customer_id" d) = true ->
        dict_get "customer_id" d <> JStr "FAIL_CUSTOMER" ->
        truthy (dict_get "items" d) = true ->
        fst (create_sales_order_api py_hash py_str tt w)
        = Ok {| body := JObj (confirmation_of
                                (simulated_order_id py_hash py_str d));
                status_code := 201 |})).
Proof.
  intros w. unfold create_sales_order_api.
  split; [apply key_rejected |].
  split.
  { intros Hk msg Ej. rewrite (key_accepted_pass _ _ _ Hk).
    unfold create_sales_order_api_with, try_except, bind, get_request,
      lift_result. rewrite Ej. reflexivity. }
  intros Hk d Ej Hd. rewrite (key_accepted_pass _ _ _ Hk).
  rewrite (sales_order_handler_forwards _ _ _ Ej Hd).
  split; [| split; [| split]].
  - intros Hh.
    erewrite forward_to_backend_raise
      by (apply create_sales_order_down; exact Hh).
    reflexivity.
  - intros Hh Hmiss.
    erewrite forward_to_backend_raise.
    2: { rewrite (create_sales_order_up _ _ _ _ Hh).
         destruct Hmiss as [-> | ->]; [| rewrite orb_true_r]; reflexivity. }
    reflexivity.
  - intros Hh Hc Hi.
    erewrite forward_to_backend_raise.
    2: { rewrite (create_sales_order_up _ _ _ _ Hh), Hc, Hi. reflexivity. }
    reflexivity.
  - intros Hh Hc Hb Hi.
    erewrite forward_to_backend_ok.
    2: { rewrite (create_sales_order_up _ _ _ _ Hh), Hc, Hi,
           (eq_str_false _ _ Hb). reflexivity. }
    reflexivity.
Qed.

(** X10. Both routes are read-only on the settings and the request, and
    a request causes at most one backend operation, with its single
    connect attempt: after the material route the call trace is either
    unchanged, exactly when the key was not accepted, or longer by the
    read of the requested identifier and one connect; after the
    sales-order route it is either unchanged or longer by the creation
    of an order with the parsed body and one connect. *)
Theorem routes_call_backend_at_most_once :
  forall (w : world) (material_id : string),
    let w1 := snd (get_material material_id w) in
    let w2 := snd (create_sales_order_api py_hash py_str tt w) in
    (settings w1 = settings w /\ request w1 = request w /\
     (~ key_accepted w -> calls w1 = calls w) /\
     (key_accepted w ->
      calls w1 = CallConnect :: CallReadMaterial material_id :: calls w)) /\
    (settings w2 = settings w /\ request w2 = request w /\
     (calls w2 = calls w \/
      exists d, get_json (request w) = Ok (JObj d) /\
                dict_contains "details" d = true /\
                key_accepted w /\
                calls w2 = CallConnect :: CallCreateSalesOrder d :: calls w)).
Proof.
  intros w material_id. cbv zeta. split.
  - unfold get_material.
    destruct (key_accepted_dec w) as [Hk | Hk].
    + rewrite (key_accepted_pass _ _ _ Hk).
      destruct (handlers_contain_exceptions_aux_read material_id w)
        as (r & Hr).
      rewrite Hr. cbn [snd].
      destruct (backend_operations_frame_read material_id w)
        as (Hs & Hq & Hc).
      split; [exact Hs |]. split; [exact Hq |].
      split; [intros Hno; contradiction | intros _; exact Hc].
    + rewrite (key_rejected _ _ _ Hk). cbn [snd].
      repeat split. intros Hyes. contradiction.
  - unfold create_sales_order_api.
    destruct (key_accepted_dec w) as [Hk | Hk].
    2: { rewrite (key_rejected _ _ _ Hk). cbn [snd]. repeat split. now left. }
    rewrite (key_accepted_pass _ _ _ Hk).
    destruct (get_json (request w)) as [data | e] eqn:Ej.
    2: { unfold create_sales_order_api_with, try_except, bind, get_request,
           lift_result. rewrite Ej.
         destruct (sales_order_except_ok e w) as (r & Hr & _). rewrite Hr.
         cbn [snd]. repeat split. now left. }
    rewrite (sales_order_handler_unfold _ w data Ej).
    destruct (negb (truthy data) || negb (is_dict data));
      [cbn [snd]; repeat split; now left |].
    destruct data; try (cbn [snd]; repeat split; now left).
    destruct (dict_contains "details" fields) eqn:Hd; cbn [negb];
      [| cbn [snd]; repeat split; now left].
    pose proof (create_sales_order_world py_hash py_str fields w) as Hw.
    destruct (create_sales_order py_hash py_str fields w)
      as [[c | e] w'] eqn:E; cbn [snd] in Hw; subst w'.
    + rewrite (forward_to_backend_ok _ _ _ _ _ E). cbn [snd].
      repeat split. right. exists fields. repeat split; assumption.
    + rewrite (forward_to_backend_raise _ _ _ _ _ E).
      destruct (sales_order_except_ok e
                  (add_call CallConnect
                     (add_call (CallCreateSalesOrder fields) w)))
        as (r & Hr & _).
      rewrite Hr. cbn [snd].
      repeat split. right. exists fields. repeat split; assumption.
Qed.

End SalesOrderRoute.

Lemma sales_order_route_table_witness :
  let w := sample_world (Some "sap.example.com") (Some "k") (Some "k")
             (Ok (JObj sample_order)) in
  let unparsed := sample_world (Some "sap.example.com") (Some "k") (Some "k")
                    (Raise (OtherException "400 Bad Request")) in
  let nokey := sample_world (Some "sap.example.com") (Some "k") (Some "K")
                 (Ok (JObj sample_order)) in
  ~ key_accepted nokey /\
  create_sales_order_api sample_hash sample_str tt nokey
  = (Ok unauthorized, nokey) /\
  key_accepted unparsed /\
  create_sales_order_api sample_hash sample_str tt unparsed
  = (Ok unexpected_error, unparsed) /\
  key_accepted w /\
  get_json (request w) = Ok (JObj sample_order) /\
  dict_contains "details" sample_order = true /\
  SAP_HOST (settings w) <> Some "fail_connection" /\
  truthy (dict_get "customer_id" sample_order) = true /\
  dict_get "customer_id" sample_order <> JStr "FAIL_CUSTOMER" /\
  truthy (dict_get "items" sample_order) = true /\
  fst (create_sales_order_api sample_hash sample_str tt w)
  = Ok {| body := JObj (confirmation_of
                          (simulated_order_id sample_hash sample_str
                             sample_order));
          status_code := 201 |}.
Proof.
  intros w unparsed nokey.
  assert (Hno : ~ key_accepted nokey).
  { intros (key & Eh & _ & Ek). cbn in Eh, Ek. congruence. }
  assert (Hku : key_accepted unparsed).
  { exists "k". repeat split. discriminate. }
  assert (Hk : key_accepted w).
  { exists "k". repeat split. discriminate. }
  assert (Hj : get_json (request w) = Ok (JObj sample_order)) by reflexivity.
  assert (Hd : dict_contains "details" sample_order = true) by reflexivity.
  assert (Hh : SAP_HOST (settings w) <> Some "fail_connection")
    by discriminate.
  assert (Hc : truthy (dict_get "customer_id" sample_order) = true)
    by reflexivity.
  assert (Hb : dict_get "customer_id" sample_order <> JStr "FAIL_CUSTOMER")
    by discriminate.
  assert (Hi : truthy (dict_get "items" sample_order) = true) by reflexivity.
  split; [exact Hno |].
  split;
    [exact (proj1 (sales_order_route_table sample_hash sample_str nokey) Hno) |].
  split; [exact Hku |].
  split;
    [exact (proj1 (proj2 (sales_order_route_table sample_hash sample_str
                            unparsed)) Hku "400 Bad Request" eq_refl) |].
  repeat (split; [assumption |]).
  exact (proj2 (proj2 (proj2
           (proj2 (proj2 (sales_order_route_table sample_hash sample_str w))
              Hk sample_order Hj Hd))) Hh Hc Hb Hi).
Defined.

Lemma routes_call_backend_at_most_once_witness :
  let w := sample_world (Some "fail_connection") (Some "k") (Some "k")
             (Ok (JObj sample_order)) in
  key_accepted w /\
  calls (snd (get_material "MAT001" w))
  = CallConnect :: CallReadMaterial "MAT001" :: calls w.
Proof.
  intros w.
  assert (Hk : key_accepted w).
  { exists "k". repeat split. discriminate. }
  split; [exact Hk |].
  exact (proj2 (proj2 (proj2 (proj1
           (routes_call_backend_at_most_once sample_hash sample_str
              w "MAT001")))) Hk).
Defined.

(* ------------------------------------------------------------------ *)
(** * The global error handlers *)

(** X11. Every registered error handler answers with the status code it
    is registered for and a JSON object with exactly the two string
    fields [error] and [message]; the 400, 401 and 405 handlers put the
    text of the error in [message], while the 404 and 500 handlers answer
    the same fixed body for every error and so reveal nothing of it. *)
Theorem error_handlers_answer_their_code :
  forall (code : Z) (handler : string -> response) (error : string),
    In (code, handler) error_handlers ->
    status_code (handler error) = code /\
    (exists name message,
        body (handler error)
        = JObj [("error", JStr name); ("message", JStr message)] /\
        (code = 400 \/ code = 401 \/ code = 405 -> message = error)) /\
    (code = 404 \/ code = 500 ->
     forall error', handler error' = handler error).
Proof.
  intros code handler error Hin.
  unfold error_handlers in Hin. cbn [In] in Hin.
  destruct Hin as [H | [H | [H | [H | [H | []]]]]];
    injection H as <- <-;
    (split; [reflexivity |]);
    (split; [eexists _, _; split; [reflexivity |] |]);
    try (intros _; reflexivity);
    try (intros [Hc | Hc]; discriminate Hc);
    try (intros [Hc | [Hc | Hc]]; discriminate Hc);
    try (intros _ error'; reflexivity).
Qed.

Lemma error_handlers_answer_their_code_witness :
  In (500, internal_server_error) error_handlers /\
  status_code (internal_server_error "division by zero in handler") = 500 /\
  (exists name message,
      body (internal_server_error "division by zero in handler")
      = JObj [("error", JStr name); ("message", JStr message)] /\
      (500 = 400 \/ 500 = 401 \/ 500 = 405 ->
       message = "division by zero in handler")) /\
  (500 = 404 \/ 500 = 500 ->
   forall error',
     internal_server_error error'
     = internal_server_error "division by zero in handler").
Proof.
  assert (Hin : In (500, internal_server_error) error_handlers).
  { cbn. do 4 right. left. reflexivity. }
  split; [exact Hin |].
  exact (error_handlers_answer_their_code 500 internal_server_error
           "division by zero in handler" Hin).
Defined.

(* ------------------------------------------------------------------ *)
(** * The settings loader *)

Ltac ascii_cases c :=
  destruct c as [[|] [|] [|] [|] [|] [|] [|] [|]];
  (split;
   [ intros H; vm_compute in H; try discriminate H; auto
   | intros [H | H]; try discriminate H; reflexivity ]).

Lemma ascii_lower_t (c : ascii) :
  ascii_lower c = "t"%char <-> c = "t"%char \/ c = "T"%char.
Proof. ascii_cases c. Qed.

Lemma ascii_lower_r (c : ascii) :
  ascii_lower c = "r"%char <-> c = "r"%char \/ c = "R"%char.
Proof. ascii_cases c. Qed.

Lemma ascii_lower_u (c : ascii) :
  ascii_lower c = "u"%char <-> c = "u"%char \/ c = "U"%char.
Proof. ascii_cases c. Qed.

Lemma ascii_lower_e (c : ascii) :
  ascii_lower c = "e"%char <-> c = "e"%char \/ c = "E"%char.
Proof. ascii_cases c. Qed.

Lemma str_lower_true (s : string) :
  str_lower s = "true" <->
  exists t r u e,
    s = String t (String r (String u (String e ""))) /\
    (t = "t" \/ t = "T")%char /\
    (r = "r" \/ r = "R")%char /\
    (u = "u" \/ u = "U")%char /\
    (e = "e" \/ e = "E")%char.
Proof.
  split.
  - intros H.
    destruct s as [|t [|r [|u [|e [|x s]]]]]; try discriminate H.
    cbn [str_lower] in H. injection H as Ht Hr Hu He.
    exists t, r, u, e. split; [reflexivity |].
    rewrite <- ascii_lower_t, <- ascii_lower_r, <- ascii_lower_u,
      <- ascii_lower_e.
    auto.
  - intros (t & r & u & e & -> & Ht & Hr & Hu & He).
    apply ascii_lower_t in Ht. apply ascii_lower_r in Hr.
    apply ascii_lower_u in Hu. apply ascii_lower_e in He.
    cbn [str_lower]. now rewrite Ht, Hr, Hu, He.
Qed.

(** X12. The loaded [DEBUG] flag is on exactly when the variable [DEBUG]
    is unset (the default is "True") or is the four letters t, r, u, e in
    any mix of upper and lower case; every other value, such as "1",
    "yes", "on" or the empty string, turns it off. *)
Theorem debug_flag_parsing :
  forall (env : environ),
    DEBUG (load_flask_settings env) = true <->
    env "DEBUG" = None \/
    exists t r u e,
      env "DEBUG" = Some (String t (String r (String u (String e "")))) /\
      (t = "t" \/ t = "T")%char /\
      (r = "r" \/ r = "R")%char /\
      (u = "u" \/ u = "U")%char /\
      (e = "e" \/ e = "E")%char.
Proof.
  intros env. unfold load_flask_settings, getenv_default. cbn [DEBUG].
  destruct (env "DEBUG") as [s |].
  - rewrite String.eqb_eq, str_lower_true. split.
    + intros (t & r & u & e & -> & H). right. now exists t, r, u, e.
    + intros [H | (t & r & u & e & H & H')]; [discriminate H |].
      injection H as ->. now exists t, r, u, e.
  - split; [intros _; now left | intros _; reflexivity].
Qed.

Example debug_flag_1 :
  DEBUG (load_flask_settings (sample_env [("DEBUG", "1")])) = false.
Proof. reflexivity. Qed.

Example debug_flag_mixed_case :
  DEBUG (load_flask_settings (sample_env [("DEBUG", "tRuE")])) = true.
Proof. reflexivity. Qed.

Example debug_flag_unset :
  DEBUG (load_flask_settings (sample_env [("API_KEY", "k")])) = true.
Proof. reflexivity. Qed.

(* ------------------------------------------------------------------ *)
(** * What a success status implies *)

Section SuccessImplies.

Variable py_hash : string -> Z.
Variable py_str : dict -> string.

(** X13. A success status is never given away.  If the material route
    answers 200, the key was accepted, the host is not the fault
    sentinel, the identifier is not a reserved one and the body is the
    record of that identifier.  If the sales-order route answers 201, the
    key was accepted, the parsed body is a mapping with the key
    [details], a truthy [customer_id] other than "FAIL_CUSTOMER" and
    truthy [items], the host is not the fault sentinel, and the body is
    the confirmation carrying the identifier simulated from that
    mapping. *)
Theorem success_status_implies :
  forall (w : world) (material_id : string) (r : response),
    (fst (get_material material_id w) = Ok r ->
     status_code r = 200 ->
     key_accepted w /\
     SAP_HOST (settings w) <> Some "fail_connection" /\
     ~ In material_id reserved_material_ids /\
     body r = JObj (material_record material_id)) /\
    (fst (create_sales_order_api py_hash py_str tt w) = Ok r ->
     status_code r = 201 ->
     key_accepted w /\
     SAP_HOST (settings w) <> Some "fail_connection" /\
     exists d,
       get_json (request w) = Ok (JObj d) /\
       dict_contains "details" d = true /\
       truthy (dict_get "customer_id" d) = true /\
       dict_get "customer_id" d <> JStr "FAIL_CUSTOMER" /\
       truthy (dict_get "items" d) = true /\
       body r = JObj (confirmation_of (simulated_order_id py_hash py_str d))).
Proof.
  intros w material_id r. split.
  - unfold get_material. intros Hr Hs.
    destruct (key_accepted_dec w) as [Hk | Hk].
    2: { rewrite (key_rejected _ _ _ Hk) in Hr. injection Hr as <-.
         discriminate Hs. }
    rewrite (key_accepted_pass _ _ _ Hk) in Hr.
    destruct (option_eq_dec_host (SAP_HOST (settings w))) as [Hh | Hh].
    { erewrite get_material_with_raise in Hr
        by (apply read_material_data_down; exact Hh).
      injection Hr as <-. discriminate Hs. }
    destruct (read_material_data material_id w) as [[record | e] w'] eqn:E.
    + rewrite (get_material_with_ok _ _ _ _ _ E) in Hr. injection Hr as <-.
      rewrite (read_material_data_up _ _ Hh) in E.
      destruct (material_id =? "INVALID")%string eqn:E1;
        [discriminate E |].
      destruct (material_id =? "NOT_FOUND")%string eqn:E2;
        [discriminate E |].
      destruct (material_id =? "ERROR_READ")%string eqn:E3;
        [discriminate E |].
      cbn [orb] in E. injection E as <- _.
      apply String.eqb_neq in E1, E2, E3.
      repeat split; try assumption.
      unfold reserved_material_ids. cbn [In]. intuition congruence.
    + rewrite (get_material_with_raise _ _ _ _ _ E) in Hr.
      destruct e; injection Hr as <-; discriminate Hs.
  - unfold create_sales_order_api. intros Hr Hs.
    destruct (key_accepted_dec w) as [Hk | Hk].
    2: { rewrite (key_rejected _ _ _ Hk) in Hr. injection Hr as <-.
         discriminate Hs. }
    rewrite (key_accepted_pass _ _ _ Hk) in Hr.
    destruct (get_json (request w)) as [data | e] eqn:Ej.
    2: { unfold create_sales_order_api_with, try_except, bind, get_request,
           lift_result in Hr. rewrite Ej in Hr.
         destruct e; injection Hr as <-; discriminate Hs. }
    rewrite (sales_order_handler_unfold _ w data Ej) in Hr.
    destruct (negb (truthy data) || negb (is_dict data));
      [injection Hr as <-; discriminate Hs |].
    destruct data; try (injection Hr as <-; discriminate Hs).
    destruct (dict_contains "details" fields) eqn:Hd; cbn [negb] in Hr;
      [| injection Hr as <-; discriminate Hs].
    destruct (option_eq_dec_host (SAP_HOST (settings w))) as [Hh | Hh].
    { erewrite forward_to_backend_raise in Hr
        by (apply create_sales_order_down; exact Hh).
      injection Hr as <-. discriminate Hs. }
    destruct (create_sales_order py_hash py_str fields w)
      as [[c | e] w'] eqn:E.
    + rewrite (forward_to_backend_ok _ _ _ _ _ E) in Hr. injection Hr as <-.
      rewrite (create_sales_order_up _ _ _ _ Hh) in E.
      destruct (truthy (dict_get "customer_id" fields)) eqn:Ec;
        cbn [negb orb] in E; [| discriminate E].
      destruct (truthy (dict_get "items" fields)) eqn:Ei;
        cbn [negb orb] in E; [| discriminate E].
      destruct (eq_str (dict_get "customer_id" fields) "FAIL_CUSTOMER")
        eqn:Eb; [discriminate E |].
      injection E as <- _.
      split; [exact Hk |]. split; [exact Hh |].
      exists fields.
      repeat (split; [first [assumption | reflexivity] |]).
      split; [| split; [assumption | reflexivity]].
      intros Hb. rewrite Hb in Eb. cbn in Eb. discriminate Eb.
    + rewrite (forward_to_backend_raise _ _ _ _ _ E) in Hr.
      destruct e; injection Hr as <-; discriminate Hs.
Qed.

End SuccessImplies.

Lemma success_status_implies_witness :
  let w := sample_world None (Some "k") (Some "k") (Ok (JObj sample_order)) in
  let r := {| body := JObj (material_record "TESTMAT"); status_code := 200 |} in
  fst (get_material "TESTMAT" w) = Ok r /\
  status_code r = 200 /\
  key_accepted w /\
  SAP_HOST (settings w) <> Some "fail_connection" /\
  ~ In "TESTMAT" reserved_material_ids /\
  body r = JObj (material_record "TESTMAT").
Proof.
  intros w r.
  assert (Hr : fst (get_material "TESTMAT" w) = Ok r) by reflexivity.
  assert (Hs : status_code r = 200) by reflexivity.
  split; [exact Hr |]. split; [exact Hs |].
  exact (proj1 (success_status_implies sample_hash sample_str w "TESTMAT" r)
           Hr Hs).
Defined.
